(** * Cybersecurity news aggregator: fetch, retry, orchestration, export

    A shallow embedding of the scraping core of [scrapper.py]
    ([AsyncWebScraper], [RSSFeedAggregator], [CybersecurityAggregator] and
    the collection step of [ModernNewsAggregatorUI.run_scraping]) together
    with the properties its specification states about it.

    Conventions of the embedding.
    - A Python [str] is the [string] of its UTF-8 bytes; its length and
      its slices count characters (code points), not bytes.  The case
      mappings ([lower], [title], [upper]) are those of ASCII letters, which
      covers every source identifier and status of the program; a property
      that depends on them for an arbitrary text is stated for ASCII text.
    - A Python [int] is a [Z]; a [range] index is a [nat].
    - A [dict] whose iteration order is observed (an article, the result
      map) is an association list in insertion order; the feed table, which
      is only queried with [get], is a [gmap].
    - An exception is the text [str(e)] of an [Exception] instance; a
      computation is its trace of effects together with its outcome.
    - The network, the HTML parser, the clock and the file system are
      oracles supplied by a [world] record. *)

From Stdlib Require Import ZArith List String Ascii Sorted.
From stdpp Require Import base option list strings gmap pretty.

Local Open Scope string_scope.
Local Open Scope list_scope.

(** ** Python values *)

Module Py.

(** A byte that continues a character of several bytes ([10xxxxxx]). *)
Definition is_continuation (c : ascii) : bool :=
  ((128 <=? nat_of_ascii c) && (nat_of_ascii c <? 192))%nat.

(** [len(s)]: the number of characters, that is, of bytes that start
    one. *)
Fixpoint str_len (s : string) : nat :=
  match s with
  | EmptyString => 0
  | String c s' => if is_continuation c then str_len s' else S (str_len s')
  end.

(** [s[:n]] for a literal [n >= 0]: the first [n] characters, each with
    all its bytes. *)
Fixpoint str_take (n : nat) (s : string) : string :=
  match s with
  | EmptyString => EmptyString
  | String c s' =>
      if is_continuation c then String c (str_take n s')
      else match n with
           | O => EmptyString
           | S n' => String c (str_take n' s')
           end
  end.

Definition is_upper (c : ascii) : bool :=
  (Ascii.leb "A" c && Ascii.leb c "Z")%bool.

Definition is_lower (c : ascii) : bool :=
  (Ascii.leb "a" c && Ascii.leb c "z")%bool.

Definition to_lower (c : ascii) : ascii :=
  if is_upper c then ascii_of_nat (nat_of_ascii c + 32) else c.

Definition to_upper (c : ascii) : ascii :=
  if is_lower c then ascii_of_nat (nat_of_ascii c - 32) else c.

(** [s.lower()] on ASCII text: the bytes of other characters are left as
    they are. *)
Fixpoint lower (s : string) : string :=
  match s with
  | EmptyString => EmptyString
  | String c s' => String (to_lower c) (lower s')
  end.

(** [s.replace(a, b)] for one-character [a] and [b]. *)
Fixpoint replace (a b : ascii) (s : string) : string :=
  match s with
  | EmptyString => EmptyString
  | String c s' => String (if Ascii.eqb c a then b else c) (replace a b s')
  end.

(** [s.title()] on ASCII text: a cased character is upper-cased when the
    previous character is not cased, and lower-cased otherwise; the bytes
    of other characters are left as they are. *)
Fixpoint title_from (previous_is_cased : bool) (s : string) : string :=
  match s with
  | EmptyString => EmptyString
  | String c s' =>
      let c' := if previous_is_cased then to_lower c else to_upper c in
      String c' (title_from (is_upper c || is_lower c) s')
  end.

Definition title (s : string) : string := title_from false s.

(** [l[:n]] for an arbitrary integer [n]: a negative bound counts from
    the end of the list. *)
Definition slice_to {A} (n : Z) (l : list A) : list A :=
  if (0 <=? n)%Z then take (Z.to_nat n) l
  else take (Z.to_nat (Z.of_nat (length l) + n)) l.

(** An insertion-ordered dictionary with string keys. *)
Definition dict (V : Type) : Type := list (string * V).

Fixpoint dict_get {V} (k : string) (d : dict V) : option V :=
  match d with
  | [] => None
  | (k', v) :: d' => if String.eqb k k' then Some v else dict_get k d'
  end.

(** [d[k] = v]: an existing key keeps its position, a new key goes last. *)
Fixpoint dict_set {V} (k : string) (v : V) (d : dict V) : dict V :=
  match d with
  | [] => [(k, v)]
  | (k', v') :: d' =>
      if String.eqb k k' then (k', v) :: d' else (k', v') :: dict_set k v d'
  end.

Definition keys {V} (d : dict V) : list string := map fst d.
Definition values {V} (d : dict V) : list V := map snd d.

(** [sorted(set(l))] on strings: ordered by code point, without
    repetition. *)
Fixpoint insert_sorted (k : string) (l : list string) : list string :=
  match l with
  | [] => [k]
  | x :: l' =>
      match String.compare k x with
      | Lt => k :: x :: l'
      | Eq => x :: l'
      | Gt => x :: insert_sorted k l'
      end
  end.

Definition sorted_set (l : list string) : list string :=
  fold_right insert_sorted [] l.

End Py.

(** ** Data model *)

(** An article is the dictionary built by the fetchers. *)
Definition article : Type := Py.dict string.

(** [@dataclass class ScrapingResult] *)
Record ScrapingResult : Type := mkScrapingResult {
  source : string;
  articles : list article;
  status : string;
  error : option string
}.

(** ** Effects *)

Inductive outcome (A : Type) : Type :=
| Return (a : A)
| Raise (e : string).
Arguments Return {A} a.
Arguments Raise {A} e.

Inductive level : Type := DEBUG | INFO | WARNING | ERROR.

Inductive event : Type :=
| Log (lv : level) (msg : string)
| Sleep (delay : Z)
| SessionOpen
| SessionClose
| HttpGet (url : string)
| FeedParse (url : string)
| ParseHtml
| OpenFile (name : string)
| WriteCsv (name : string) (fieldnames : list string) (rows : list article)
| WriteJson (name : string) (scraped_at : string) (total : nat)
            (arts : list article)
| TaskDone (i : nat)
| Callback (key : string) (r : ScrapingResult).

Definition trace : Type := list event.

(** A computation: the effects it performed, then how it ended. *)
Definition io (A : Type) : Type := (trace * outcome A)%type.

Definition io_ret {A} (a : A) : io A := ([], Return a).

Definition io_bind {A B} (f : A -> io B) (m : io A) : io B :=
  match m with
  | (t, Return a) => let '(t', r) := f a in (t ++ t', r)
  | (t, Raise e) => (t, Raise e)
  end.

#[export] Instance io_mret : MRet io := @io_ret.
#[export] Instance io_mbind : MBind io := @io_bind.

Definition emit (e : event) : io unit := ([e], Return tt).
Definition raise {A} (e : string) : io A := ([], Raise e).
Definition lift {A} (o : outcome A) : io A := ([], o).

(** [try: body except Exception as e: handler(e)] *)
Definition try_except {A} (body : io A) (handler : string -> io A) : io A :=
  match body with
  | (t, Return a) => (t, Return a)
  | (t, Raise e) => let '(t', r) := handler e in (t ++ t', r)
  end.

Definition trace_of {A} (m : io A) : trace := fst m.
Definition outcome_of {A} (m : io A) : outcome A := snd m.

(** ** The world the program runs in *)

(** What [session.get(url)] does on one attempt: it raises, or it yields a
    response with a status code whose [text()] can itself raise. *)
Inductive http_outcome : Type :=
| HttpError (e : string)
| HttpResponse (code : Z) (text : outcome string).

(** An entry of a parsed feed: the fields the program reads, or an entry
    on which reading a field raises. *)
Record feed_fields : Type := mkFeedFields {
  entry_title : option string;
  entry_link : option string;
  entry_summary : option string;
  entry_published : option string;
  entry_author : option string
}.

Inductive feed_entry : Type :=
| MalformedEntry (e : string)
| FeedEntry (f : feed_fields).

(** An [<a>] element and its [href] attribute. *)
Record link_elem : Type := mkLink { href : option string }.

(** A heading element: [get_text(strip=True)] and [find('a')]. *)
Record title_elem : Type := mkTitleElem {
  get_text : string;
  find_a : option link_elem
}.

(** An [<article>] element, as seen through the four [find] queries of
    the scraper; the summary queries are given by the text of the element
    found. *)
Record story : Type := mkStory {
  find_h2_entry_title : option title_elem;
  find_h2_h3 : option title_elem;
  find_div_entry_summary : option string;
  find_p : option string
}.

Inductive story_element : Type :=
| BrokenElement
| Story (s : story).

Record world : Type := mkWorld {
  (** [feedparser.parse(url)] *)
  feedparser_parse : string -> outcome (list feed_entry);
  (** [session.get(url)] on the attempt of the given index *)
  session_get : string -> nat -> http_outcome;
  (** [BeautifulSoup(html, 'html.parser').find_all('article')] *)
  find_all_article : string -> outcome (list story_element);
  (** [datetime.now().strftime(fmt)] while the fetcher of the given source
      handles the entry of the given index *)
  now_strftime : string -> nat -> string -> string
}.

(** ** [AsyncWebScraper] *)

Record RetryConfig : Type := mkRetryConfig {
  max_retries : Z;
  base_delay : Z;
  max_delay : Z;
  backoff_factor : Z
}.

(** [self.retry_config] as [__init__] sets it. *)
Definition retry_config : RetryConfig :=
  {| max_retries := 3; base_delay := 1; max_delay := 10; backoff_factor := 2 |}.

(** The [delay] computed at the head of each iteration. *)
Definition backoff_delay (cfg : RetryConfig) (attempt : nat) : Z :=
  Z.min (base_delay cfg * backoff_factor cfg ^ Z.of_nat attempt) (max_delay cfg).

(** [if attempt > 0: await asyncio.sleep(delay)] *)
Definition sleep_before (cfg : RetryConfig) (attempt : nat) : io unit :=
  if (0 <? attempt)%nat then emit (Sleep (backoff_delay cfg attempt))
  else mret tt.

(** One iteration of the loop of [scrape_with_retry]: [Some body] when the
    iteration returns, [None] when the loop goes on. *)
Definition attempt_once (cfg : RetryConfig) (url : string)
    (get : nat -> http_outcome) (attempt : nat) : io (option string) :=
  try_except
    (sleep_before cfg attempt ;;
     emit (HttpGet url) ;;
     match get attempt with
     | HttpError e => raise e
     | HttpResponse code text =>
         if (code =? 200)%Z then body ← lift text; mret (Some body)
         else mret None
     end)
    (fun e =>
       emit (Log ERROR ("Attempt " +:+ pretty (attempt + 1)%nat +:+ " error: " +:+ e)) ;;
       mret None).

Fixpoint retry_loop (cfg : RetryConfig) (url : string)
    (get : nat -> http_outcome) (attempts : list nat) : io (option string) :=
  match attempts with
  | [] => mret None
  | attempt :: rest =>
      r ← attempt_once cfg url get attempt;
      match r with
      | Some body => mret (Some body)
      | None => retry_loop cfg url get rest
      end
  end.

Definition scrape_with_retry (cfg : RetryConfig) (url : string)
    (get : nat -> http_outcome) : io (option string) :=
  retry_loop cfg url get (seq 0 (Z.to_nat (max_retries cfg))).

Definition time_format : string := "%Y-%m-%d %H:%M".

(** The loop over [feed.entries[:limit]] shared by the feed fetchers:
    [build i f] is the article made from the fields [f] of entry [i]; an
    entry that raises is logged and skipped. *)
Fixpoint feed_loop (build : nat -> feed_fields -> article)
    (debug_prefix : string) (i : nat) (entries : list feed_entry)
    : io (list article) :=
  match entries with
  | [] => mret []
  | MalformedEntry e :: rest =>
      emit (Log DEBUG (debug_prefix +:+ e)) ;;
      feed_loop build debug_prefix (S i) rest
  | FeedEntry f :: rest =>
      arts ← feed_loop build debug_prefix (S i) rest;
      mret (build i f :: arts)
  end.

(** The article dictionary of [scrape_dark_reading] and
    [scrape_bleeping_computer]. *)
Definition async_feed_article (w : world) (id label : string)
    (i : nat) (f : feed_fields) : article :=
  [ ("title", Py.str_take 100 (default "N/A" (entry_title f)));
    ("url", default "N/A" (entry_link f));
    ("summary", Py.str_take 250 (default "" (entry_summary f)));
    ("published", default (now_strftime w id i time_format) (entry_published f));
    ("source", label) ].

(** The common body of [scrape_dark_reading] and
    [scrape_bleeping_computer], which differ in their constants only. *)
Definition scrape_feed_async (id label feed_url debug_prefix : string)
    (w : world) (limit : Z) : io ScrapingResult :=
  try_except
    (emit (FeedParse feed_url) ;;
     feed ← lift (feedparser_parse w feed_url);
     arts ← feed_loop (async_feed_article w id label) debug_prefix 0
              (Py.slice_to limit feed);
     mret (mkScrapingResult id arts "success" None))
    (fun e =>
       emit (Log ERROR ("Error scraping " +:+ label +:+ ": " +:+ e)) ;;
       mret (mkScrapingResult id [] "error" (Some e))).

Definition scrape_dark_reading : world -> Z -> io ScrapingResult :=
  scrape_feed_async "dark_reading" "Dark Reading"
    "https://www.darkreading.com/rss.xml" "Error parsing Dark Reading entry: ".

Definition scrape_bleeping_computer : world -> Z -> io ScrapingResult :=
  scrape_feed_async "bleeping_computer" "Bleeping Computer"
    "https://www.bleepingcomputer.com/feed/" "Error parsing BC entry: ".

(** Truth value of a string: only the empty string is false. *)
Definition truthy (s : string) : bool :=
  match s with EmptyString => false | String _ _ => true end.

(** The body of the loop of [scrape_krebs_security] on one element:
    [None] when the element is skipped by a [continue]. *)
Definition story_article (now : string) (s : story) : option article :=
  let title_elem :=
    match find_h2_entry_title s with
    | Some t => Some t
    | None => find_h2_h3 s
    end in
  match title_elem with
  | None => None
  | Some t =>
      let title := get_text t in
      match find_a t with
      | Some link =>
          match href link with
          | Some url =>
              if truthy url then
                let summary_elem :=
                  match find_div_entry_summary s with
                  | Some e => Some e
                  | None => find_p s
                  end in
                let summary := default "" summary_elem in
                Some [ ("title", title);
                       ("url", url);
                       ("summary", Py.str_take 300 summary);
                       ("scraped_at", now);
                       ("source", "Krebs on Security") ]
              else None
          | None => None
          end
      | None => None
      end
  end.

Fixpoint story_loop (w : world) (i : nat) (elements : list story_element)
    : list article :=
  match elements with
  | [] => []
  | BrokenElement :: rest => story_loop w (S i) rest
  | Story s :: rest =>
      match story_article (now_strftime w "krebs_security" i time_format) s with
      | Some a => a :: story_loop w (S i) rest
      | None => story_loop w (S i) rest
      end
  end.

Definition krebs_url : string := "https://krebsonsecurity.com".

(** [not html] for the value returned by [scrape_with_retry]. *)
Definition not_html (html : option string) : bool :=
  match html with
  | None => true
  | Some body => negb (truthy body)
  end.

Definition scrape_krebs_security (cfg : RetryConfig) (w : world) (limit : Z)
    : io ScrapingResult :=
  try_except
    (emit SessionOpen ;;
     html ← scrape_with_retry cfg krebs_url (session_get w krebs_url);
     if not_html html then
       emit SessionClose ;;
       mret (mkScrapingResult "krebs_security" [] "error" (Some "Failed to fetch"))
     else
       emit ParseHtml ;;
       elements ← lift (find_all_article w (default "" html));
       let arts := story_loop w 0 (Py.slice_to limit elements) in
       emit SessionClose ;;
       mret (mkScrapingResult "krebs_security" arts "success" None))
    (fun e =>
       emit (Log ERROR ("Error scraping Krebs on Security: " +:+ e)) ;;
       mret (mkScrapingResult "krebs_security" [] "error" (Some e))).

(** ** [RSSFeedAggregator] *)

(** [self.rss_feeds] as [__init__] sets it. *)
Definition rss_feeds_init : gmap string string :=
  <["gb_hackers" := "https://gbhackers.com/feed/"]>
  (<["the_hacker_news" := "https://feeds.feedburner.com/TheHackersNews"]>
  (<["security_week" := "https://www.securityweek.com/feed/"]>
  (<["dark_reading" := "https://www.darkreading.com/rss.xml"]>
  (<["bleeping_computer" := "https://www.bleepingcomputer.com/feed/"]>
  (<["krebs_security" := "https://krebsonsecurity.com/feed/"]> ∅))))).

(** The article dictionary of [fetch_rss_feed], the [author] key being
    set only when the entry has one. *)
Definition rss_article (w : world) (source : string)
    (i : nat) (f : feed_fields) : article :=
  let url := default "N/A" (entry_link f) in
  let art :=
    [ ("title", Py.str_take 100 (default "N/A" (entry_title f)));
      ("url", url);
      ("summary", Py.str_take 250 (default "" (entry_summary f)));
      ("published", default (now_strftime w source i time_format) (entry_published f));
      ("source", Py.title (Py.replace "_" " " source)) ] in
  match entry_author f with
  | Some a => Py.dict_set "author" a art
  | None => art
  end.

Definition fetch_rss_feed (rss_feeds : gmap string string) (w : world)
    (source : string) (limit : Z) : io ScrapingResult :=
  try_except
    (let feed_url := rss_feeds !! source in
     if negb (truthy (default "" feed_url)) then
       mret (mkScrapingResult source [] "error" (Some "No RSS feed configured"))
     else
       emit (FeedParse (default "" feed_url)) ;;
       feed ← lift (feedparser_parse w (default "" feed_url));
       arts ← feed_loop (rss_article w source)
                ("Error parsing " +:+ source +:+ " entry: ") 0
                (Py.slice_to limit feed);
       mret (mkScrapingResult source arts "success" None))
    (fun e =>
       emit (Log ERROR ("Error fetching RSS for " +:+ source +:+ ": " +:+ e)) ;;
       mret (mkScrapingResult source [] "error" (Some e))).

(** ** [CybersecurityAggregator] *)

Record CybersecurityAggregator : Type := mkAggregator {
  async_scraper : RetryConfig;
  rss_aggregator : gmap string string
}.


(** A progress callback: what it does to the caller is abstracted by the
    [Callback] event; it returns or raises. *)
Definition callback_t : Type := string -> ScrapingResult -> outcome unit.

Definition async_tasks (self : CybersecurityAggregator) (w : world) (limit : Z)
    : list (io ScrapingResult) :=
  [ scrape_dark_reading w limit;
    scrape_bleeping_computer w limit;
    scrape_krebs_security (async_scraper self) w limit ].

Definition rss_tasks (self : CybersecurityAggregator) (w : world) (limit : Z)
    : list (io ScrapingResult) :=
  [ fetch_rss_feed (rss_aggregator self) w "gb_hackers" limit;
    fetch_rss_feed (rss_aggregator self) w "the_hacker_news" limit;
    fetch_rss_feed (rss_aggregator self) w "security_week" limit ].

(** [asyncio.gather] over the tasks with [return_exceptions=True]: the tasks
    complete in the order [schedule] (a permutation of their indices)
    chosen by the event loop, and the list returned follows the order of
    the arguments; a task that raised is represented by its exception.
    The effects inside each task are those of its own trace and are not
    interleaved here. *)
Definition gather {A} (tasks : list (io A)) (schedule : list nat)
    : io (list (outcome A)) :=
  (map TaskDone schedule, Return (map outcome_of tasks)).

(** [result.source.lower().replace(' ', '_')] *)
Definition source_key (label : string) : string :=
  Py.replace " " "_" (Py.lower label).

(** The loop over [results_list]. *)
Fixpoint collect_results (callback : option callback_t)
    (results_list : list (outcome ScrapingResult))
    (results : Py.dict ScrapingResult) : io (Py.dict ScrapingResult) :=
  match results_list with
  | [] => mret results
  | Raise _ :: rest => collect_results callback rest results
  | Return r :: rest =>
      let key := source_key (source r) in
      let results' := Py.dict_set key r results in
      match callback with
      | Some cb =>
          emit (Callback key r) ;;
          lift (cb key r) ;;
          collect_results callback rest results'
      | None => collect_results callback rest results'
      end
  end.

Definition scrape_all_async (self : CybersecurityAggregator) (w : world)
    (limit : Z) (callback : option callback_t) (schedule : list nat)
    : io (Py.dict ScrapingResult) :=
  emit (Log INFO "Starting async scraping...") ;;
  let all_tasks := async_tasks self w limit ++ rss_tasks self w limit in
  results_list ← gather all_tasks schedule;
  collect_results callback results_list [].

(** The loop of [save_results] that fills [all_articles]. *)
Definition extend_success (all_articles : list article) (r : ScrapingResult)
    : list article :=
  if String.eqb (status r) "success" then all_articles ++ articles r
  else all_articles.

Definition all_articles_of (results : Py.dict ScrapingResult) : list article :=
  fold_left extend_success (Py.values results) [].

(** The file system and clock seen by [save_results]. *)
Record save_world : Type := mkSaveWorld {
  (** [open(name, 'w', ...)] *)
  open_w : string -> outcome unit;
  (** [datetime.now().strftime('%Y%m%d_%H%M%S')] *)
  timestamp_now : string;
  (** [datetime.now().isoformat()] *)
  isoformat_now : string
}.

Definition member (x : string) (l : list string) : bool :=
  existsb (String.eqb x) l.

(** The sorted union of the keys of all articles. *)
Definition csv_fieldnames (all_articles : list article) : list string :=
  Py.sorted_set (concat (map Py.keys all_articles)).

Definition save_results (sw : save_world) (results : Py.dict ScrapingResult)
    (format_type : string) : io (option string * option string) :=
  let timestamp := timestamp_now sw in
  let all_articles := all_articles_of results in
  match all_articles with
  | [] =>
      emit (Log WARNING "No articles to save") ;;
      mret (None, None)
  | _ :: _ =>
      csv_file ←
        (if member format_type ["csv"; "both"] then
           let csv_filename := "cybersecurity_news_" +:+ timestamp +:+ ".csv" in
           let fieldnames := csv_fieldnames all_articles in
           emit (OpenFile csv_filename) ;;
           lift (open_w sw csv_filename) ;;
           emit (WriteCsv csv_filename fieldnames all_articles) ;;
           emit (Log INFO ("✅ Saved " +:+ pretty (length all_articles) +:+
                           " articles to " +:+ csv_filename)) ;;
           mret (Some csv_filename)
         else mret None);
      json_file ←
        (if member format_type ["json"; "both"] then
           let json_filename := "cybersecurity_news_" +:+ timestamp +:+ ".json" in
           emit (OpenFile json_filename) ;;
           lift (open_w sw json_filename) ;;
           emit (WriteJson json_filename (isoformat_now sw)
                   (length all_articles) all_articles) ;;
           emit (Log INFO ("✅ Saved results to " +:+ json_filename)) ;;
           mret (Some json_filename)
         else mret None);
      mret (csv_file, json_file)
  end.

(** ** The collection step of [ModernNewsAggregatorUI.run_scraping] *)

(** One iteration of the loop that fills [self.all_articles] and
    [total_count]. *)
Definition collect_step (acc : list article * Z) (r : ScrapingResult)
    : list article * Z :=
  if String.eqb (status r) "success"
  then (fst acc ++ articles r, (snd acc + Z.of_nat (length (articles r)))%Z)
  else acc.

(** [self.all_articles = []; total_count = 0; for result in
    self.results.values(): ...]: the article list and the count shown to
    the user. *)
Definition run_scraping_collect (results : Py.dict ScrapingResult)
    : list article * Z :=
  fold_left collect_step (Py.values results) ([], 0%Z).

(** * Vocabulary of the properties *)

(** Partial correctness: if the computation returns, its value
    satisfies [P]. *)
Definition ensures {A} (m : io A) (P : A -> Prop) : Prop :=
  match outcome_of m with
  | Return a => P a
  | Raise _ => True
  end.

(** Total correctness: the computation returns a value satisfying [P]. *)
Definition returns {A} (m : io A) (P : A -> Prop) : Prop :=
  match outcome_of m with
  | Return a => P a
  | Raise _ => False
  end.

(** The invariant of a [ScrapingResult]: a successful result carries no
    error, and only a successful result carries articles. *)
Definition result_invariant (r : ScrapingResult) : Prop :=
  (status r = "success" -> error r = None) /\
  (articles r <> [] -> status r = "success").

(** What every fetcher guarantees of the result for source [id]. *)
Definition fetched (id : string) (r : ScrapingResult) : Prop :=
  source r = id /\ result_invariant r.

(** The network actions of a trace: pauses and requests, in order. *)
Fixpoint actions (t : trace) : trace :=
  match t with
  | [] => []
  | Sleep d :: t' => Sleep d :: actions t'
  | HttpGet u :: t' => HttpGet u :: actions t'
  | _ :: t' => actions t'
  end.

(** The pauses of a trace, in order. *)
Fixpoint sleeps (t : trace) : list Z :=
  match t with
  | [] => []
  | Sleep d :: t' => d :: sleeps t'
  | _ :: t' => sleeps t'
  end.

(** The number of requests of a trace. *)
Fixpoint gets (t : trace) : nat :=
  match t with
  | [] => 0
  | HttpGet _ :: t' => S (gets t')
  | _ :: t' => gets t'
  end.

Definition total_wait (t : trace) : Z := fold_right Z.add 0%Z (sleeps t).

(** The body that the retry loop accepts from one attempt: the text of a
    response whose status is exactly 200. *)
Definition accepted_body (o : http_outcome) : option string :=
  match o with
  | HttpResponse code (Return body) =>
      if (code =? 200)%Z then Some body else None
  | _ => None
  end.

(** A status of the 2xx class. *)
Definition is_2xx (code : Z) : bool := ((200 <=? code) && (code <? 300))%Z.

(** The title element of an entry: the structural selector, then the
    generic one. *)
Definition story_title_elem (s : story) : option title_elem :=
  match find_h2_entry_title s with
  | Some t => Some t
  | None => find_h2_h3 s
  end.

(** The link of a parsed entry: the non-empty [href] of the anchor inside
    its title element, if there is one. *)
Definition story_link (e : story_element) : option string :=
  match e with
  | BrokenElement => None
  | Story s =>
      t ← story_title_elem s;
      a ← find_a t;
      u ← href a;
      if truthy u then Some u else None
  end.

(** The six sources of a full run, in the order in which
    [scrape_all_async] submits them. *)
Inductive descriptor : Type :=
| DarkReading
| BleepingComputer
| KrebsSecurity
| RssFeed (src : string).

Definition descriptors : list descriptor :=
  [ DarkReading; BleepingComputer; KrebsSecurity;
    RssFeed "gb_hackers"; RssFeed "the_hacker_news"; RssFeed "security_week" ].

(** The label that the fetcher of a source puts in its result. *)
Definition label (d : descriptor) : string :=
  match d with
  | DarkReading => "dark_reading"
  | BleepingComputer => "bleeping_computer"
  | KrebsSecurity => "krebs_security"
  | RssFeed src => src
  end.

Definition fetch (self : CybersecurityAggregator) (w : world) (limit : Z)
    (d : descriptor) : io ScrapingResult :=
  match d with
  | DarkReading => scrape_dark_reading w limit
  | BleepingComputer => scrape_bleeping_computer w limit
  | KrebsSecurity => scrape_krebs_security (async_scraper self) w limit
  | RssFeed src => fetch_rss_feed (rss_aggregator self) w src limit
  end.

(** ** Sample worlds *)

Definition dated_fields : feed_fields :=
  {| entry_title := Some "Patch Tuesday fixes two zero-days";
     entry_link := Some "https://example.org/patch-tuesday";
     entry_summary := Some "Two actively exploited flaws were fixed.";
     entry_published := Some "Tue, 14 May 2024 17:00:00 +0000";
     entry_author := Some "Staff" |}.

Definition undated_fields : feed_fields :=
  {| entry_title := Some "Botnet takedown";
     entry_link := None;
     entry_summary := None;
     entry_published := None;
     entry_author := None |}.

Definition linked_story : story :=
  {| find_h2_entry_title :=
       Some {| get_text := "Ransomware gang indicted";
               find_a := Some {| href := Some "https://krebsonsecurity.com/2024/05/indicted/" |} |};
     find_h2_h3 := None;
     find_div_entry_summary := None;
     find_p := Some "Prosecutors unsealed charges." |}.

Definition linkless_story : story :=
  {| find_h2_entry_title := None;
     find_h2_h3 := Some {| get_text := "About the author"; find_a := None |};
     find_div_entry_summary := None;
     find_p := None |}.

(** Every feed but one parses; the page is served on the second attempt. *)
Definition sample_world : world :=
  {| feedparser_parse := fun url =>
       if String.eqb url "https://feeds.feedburner.com/TheHackersNews"
       then Raise "feed unreachable"
       else Return [FeedEntry dated_fields; MalformedEntry "bad entry";
                    FeedEntry undated_fields];
     session_get := fun _ a =>
       if (a =? 1)%nat then HttpResponse 200 (Return "<html>two stories</html>")
       else HttpError "timeout";
     find_all_article := fun _ =>
       Return [Story linked_story; Story linkless_story; BrokenElement];
     now_strftime := fun _ _ fmt =>
       if String.eqb fmt "%Y-%m-%d %H:%M" then "2024-05-14 19:30" else "" |}.

(** The same world with a server that answers every request with
    [204 No Content]. *)
Definition no_content_world : world :=
  {| feedparser_parse := feedparser_parse sample_world;
     session_get := fun _ _ => HttpResponse 204 (Return "<html></html>");
     find_all_article := find_all_article sample_world;
     now_strftime := now_strftime sample_world |}.


Definition sample_save_world : save_world :=
  {| open_w := fun _ => Return tt;
     timestamp_now := "20240514_193000";
     isoformat_now := "2024-05-14T19:30:00.000000" |}.

(** The events of the attempt of index [a] as the policy prescribes them:
    a pause of [min(base * factor^a, max)] unless [a] is the first attempt,
    then the request. *)
Definition attempt_actions (cfg : RetryConfig) (url : string) (a : nat)
    : trace :=
  match a with
  | O => []
  | S _ => [Sleep (Z.min (base_delay cfg * backoff_factor cfg ^ Z.of_nat a)
                         (max_delay cfg))]
  end ++ [HttpGet url].

(** The number of attempts performed over the indices [l]: up to and
    including the first accepted one. *)
Fixpoint attempts_made (get : nat -> http_outcome) (l : list nat) : nat :=
  match l with
  | [] => 0
  | a :: rest =>
      match accepted_body (get a) with
      | Some _ => 1
      | None => S (attempts_made get rest)
      end
  end.

(** The body of the first accepted attempt among the indices [l]. *)
Fixpoint first_body (get : nat -> http_outcome) (l : list nat)
    : option string :=
  match l with
  | [] => None
  | a :: rest =>
      match accepted_body (get a) with
      | Some body => Some body
      | None => first_body get rest
      end
  end.

(** The articles that the loop over feed entries builds, as a function of
    the entries: one per well-formed entry, in order. *)
Fixpoint feed_built (build : nat -> feed_fields -> article) (i : nat)
    (entries : list feed_entry) : list article :=
  match entries with
  | [] => []
  | MalformedEntry _ :: rest => feed_built build (S i) rest
  | FeedEntry f :: rest => build i f :: feed_built build (S i) rest
  end.

(** The entries that a feed fetcher walks: the first [limit] entries of
    the parsed feed, none when the feed cannot be parsed. *)
Definition feed_entries (w : world) (feed_url : string) (limit : Z)
    : list feed_entry :=
  match feedparser_parse w feed_url with
  | Return feed => Py.slice_to limit feed
  | Raise _ => []
  end.

(** The entries that the page scraper walks: the first [limit] article
    elements of the page it fetched, none when no page could be fetched or
    parsed. *)
Definition page_entries (cfg : RetryConfig) (w : world) (limit : Z)
    : list story_element :=
  match first_body (session_get w krebs_url) (seq 0 (Z.to_nat (max_retries cfg))) with
  | Some html =>
      if truthy html then
        match find_all_article w html with
        | Return elements => Py.slice_to limit elements
        | Raise _ => []
        end
      else []
  | None => []
  end.

(** The entries that [fetch_rss_feed] walks for a source: those of its
    configured feed, none when the source has no configured feed. *)
Definition rss_feed_entries (rss_feeds : gmap string string) (w : world)
    (src : string) (limit : Z) : list feed_entry :=
  match rss_feeds !! src with
  | Some url => if truthy url then feed_entries w url limit else []
  | None => []
  end.

(** The [published] values of the articles of a feed fetcher, entry by
    entry: a malformed entry gives none; any other entry gives its own
    timestamp, or, when it has none, the clock read with the format
    [%Y-%m-%d %H:%M] while that entry, of position [i], is handled. *)
Fixpoint feed_published (w : world) (id : string) (i : nat)
    (entries : list feed_entry) : list string :=
  match entries with
  | [] => []
  | MalformedEntry _ :: rest => feed_published w id (S i) rest
  | FeedEntry f :: rest =>
      match entry_published f with
      | Some p => p
      | None => now_strftime w id i "%Y-%m-%d %H:%M"
      end :: feed_published w id (S i) rest
  end.

(** The [scraped_at] values of the articles of the page scraper, entry
    by entry: an entry without a link gives none; any other entry gives the
    clock read with the format [%Y-%m-%d %H:%M] while that entry, of
    position [i], is handled. *)
Fixpoint page_stamps (w : world) (i : nat) (elements : list story_element)
    : list string :=
  match elements with
  | [] => []
  | e :: rest =>
      match story_link e with
      | Some _ =>
          now_strftime w "krebs_security" i "%Y-%m-%d %H:%M" :: page_stamps w (S i) rest
      | None => page_stamps w (S i) rest
      end
  end.

(** A progress callback that never raises (or no callback at all). *)
Definition callback_returns (callback : option callback_t) : Prop :=
  match callback with
  | Some cb => forall key r, cb key r = Return tt
  | None => True
  end.

(** The entry that the orchestrator stores for a result. *)
Definition keyed (r : ScrapingResult) : string * ScrapingResult :=
  (source_key (source r), r).




(** * The presentation layer: the callers of the aggregator *)

(** [s.upper()] on ASCII text. *)
Fixpoint str_upper (s : string) : string :=
  match s with
  | EmptyString => EmptyString
  | String c s' => String (Py.to_upper c) (str_upper s')
  end.

(** The line feed character. *)
Definition nl : string := String (ascii_of_nat 10) EmptyString.

(** What the window does: widget updates, dialogs, the browser, and the
    effects of the aggregator it calls.  [UiLog] is a call of
    [update_log]; calls into Tk are taken not to raise. *)
Inductive ui_event : Type :=
| SetCount (card text : string)
| SetStatus (card text fg : string)
| UiLog (message lvl : string)
| TreeClear
| TreeInsert (src title url : string)
| OpenBrowser (url : string)
| ShowWarning (title message : string)
| ShowInfo (title message : string)
| ShowError (title message : string)
| AskDirectory
| Core (e : event).

(** [self.colors['success']] and [self.colors['error']] as [setup_styles]
    sets them. *)
Definition color_success : string := "#10b981".
Definition color_error : string := "#ef4444".

(** The keys of [self.stat_cards] as [create_dashboard] fills it. *)
Definition stat_cards_init : list string :=
  [ "gb_hackers"; "the_hacker_news"; "security_week";
    "dark_reading"; "bleeping_computer"; "krebs_security" ].

(** [source_key.replace('_', ' ').title()] *)
Definition card_title (key : string) : string :=
  Py.title (Py.replace "_" " " key).

(** [result.error or 'No articles'] *)
Definition error_or_no_articles (r : ScrapingResult) : string :=
  match error r with
  | Some e => if truthy e then e else "No articles"
  | None => "No articles"
  end.

(** [ModernNewsAggregatorUI.update_stat_card] *)
Definition update_stat_card (stat_cards : list string) (key : string)
    (r : ScrapingResult) : list ui_event :=
  if member key stat_cards then
    let success := String.eqb (status r) "success" in
    let count := if success then length (articles r) else 0 in
    let status_icon := if success then "✅" else "❌" in
    [ SetCount key (pretty count +:+ " articles");
      SetStatus key (status_icon +:+ " " +:+ str_upper (status r))
        (if success then color_success else color_error) ] ++
    (if (0 <? count)%nat then
       [ UiLog ("✅ " +:+ card_title key +:+ ": " +:+ pretty count +:+ " articles")
           "success" ]
     else
       [ UiLog ("⚠️ " +:+ card_title key +:+ ": " +:+ error_or_no_articles r)
           "warning" ])
  else [].

(** The three values of a row of the articles tree. *)
Definition row_values (a : article) : list string :=
  [ default "Unknown" (Py.dict_get "source" a);
    Py.str_take 80 (default "N/A" (Py.dict_get "title" a));
    default "" (Py.dict_get "url" a) ].

(** [ModernNewsAggregatorUI.populate_articles] *)
Definition populate_articles (all_articles : list article) : list ui_event :=
  TreeClear ::
  map (fun a =>
         TreeInsert (default "Unknown" (Py.dict_get "source" a))
                    (Py.str_take 80 (default "N/A" (Py.dict_get "title" a)))
                    (default "" (Py.dict_get "url" a)))
      (take 200 all_articles).

(** [ModernNewsAggregatorUI.open_url]; [selection] holds the values of the
    selected rows, and indexing an empty selection raises. *)
Definition open_url (selection : list (list string))
    : list ui_event * outcome unit :=
  match selection with
  | [] => ([], Raise "tuple index out of range")
  | values :: _ =>
      if (negb (bool_decide (values = [])) && (2 <? length values)%nat)%bool then
        let url := default "" (values !! 2%nat) in
        if (truthy url && String.prefix "http" url)%bool
        then ([OpenBrowser url], Return tt)
        else ([], Return tt)
      else ([], Return tt)
  end.

(** The part of the window state that the export reads. *)
Record ui_state : Type := mkUiState {
  ui_results : Py.dict ScrapingResult;
  ui_all_articles : list article
}.

(** The [format_type] that [export_results] passes on. *)
Definition export_format (export_csv export_json : bool) : string :=
  if (export_csv && export_json)%bool then "both"
  else if export_csv then "csv" else "json".

(** [if file: self.update_log(...)] *)
Definition exported (kind : string) (file : option string) : list ui_event :=
  match file with
  | Some f =>
      if truthy f then [UiLog ("✅ " +:+ kind +:+ " exported: " +:+ f) "success"]
      else []
  | None => []
  end.

(** [ModernNewsAggregatorUI.export_results]; [folder] is what the
    directory dialog returns, empty when it is cancelled. *)
Definition export_results (sw : save_world) (st : ui_state)
    (export_csv export_json : bool) (folder : string) : list ui_event :=
  match ui_all_articles st with
  | [] => [ShowWarning "Export" "No articles to export. Please scrape first."]
  | _ :: _ =>
      AskDirectory ::
      if truthy folder then
        match save_results sw (ui_results st) (export_format export_csv export_json) with
        | (t, Return (csv_file, json_file)) =>
            map Core t ++
            [UiLog "💾 Exporting results..." "info"] ++
            exported "CSV" csv_file ++
            exported "JSON" json_file ++
            [ShowInfo "Export"
               ("Results exported successfully!" +:+ nl +:+ nl +:+ "Folder: " +:+ folder)]
        | (t, Raise e) =>
            map Core t ++
            [ ShowError "Export Error" ("Error exporting: " +:+ e);
              UiLog ("❌ Export error: " +:+ e) "error" ]
        end
      else []
  end.

(** The sources of the RSS-only mode of [run_scraping], in its order. *)
Definition rss_mode_sources : list string :=
  [ "gb_hackers"; "the_hacker_news"; "security_week";
    "dark_reading"; "bleeping_computer"; "krebs_security" ].

(** The first loop of the RSS-only mode: one feed after the other. *)
Fixpoint fetch_each (rss_feeds : gmap string string) (w : world) (limit : Z)
    (sources : list string) : io (list ScrapingResult) :=
  match sources with
  | [] => mret []
  | src :: rest =>
      r ← fetch_rss_feed rss_feeds w src limit;
      rs ← fetch_each rss_feeds w limit rest;
      mret (r :: rs)
  end.

(** The second loop of the RSS-only mode: store each result and update
    its card. *)
Fixpoint store_results (stat_cards : list string) (rss_tasks : list ScrapingResult)
    (results : Py.dict ScrapingResult)
    : list ui_event * Py.dict ScrapingResult :=
  match rss_tasks with
  | [] => ([], results)
  | r :: rest =>
      let key := source_key (source r) in
      let '(evs, final) := store_results stat_cards rest (Py.dict_set key r results) in
      (update_stat_card stat_cards key r ++ evs, final)
  end.

(** The RSS-only branch of [ModernNewsAggregatorUI.run_scraping]. *)
Definition run_scraping_rss (self : CybersecurityAggregator) (w : world)
    (limit : Z) (stat_cards : list string)
    : list ui_event * outcome (Py.dict ScrapingResult) :=
  match fetch_each (rss_aggregator self) w limit rss_mode_sources with
  | (t, Return rss_tasks) =>
      let '(evs, results) := store_results stat_cards rss_tasks [] in
      (UiLog "🔄 Using RSS mode (faster)..." "info" :: map Core t ++ evs,
       Return results)
  | (t, Raise e) =>
      (UiLog "🔄 Using RSS mode (faster)..." "info" :: map Core t, Raise e)
  end.

(** What an event of the orchestrator is in the window: a callback is a
    call of [update_stat_card]. *)
Definition ui_of_event (stat_cards : list string) (e : event) : list ui_event :=
  match e with
  | Callback key r => update_stat_card stat_cards key r
  | _ => [Core e]
  end.

(** The asynchronous branch of [ModernNewsAggregatorUI.run_scraping]:
    [scrape_all_async] with [update_stat_card] as its callback. *)
Definition run_scraping_async (self : CybersecurityAggregator) (w : world)
    (limit : Z) (stat_cards : list string) (schedule : list nat)
    : list ui_event * outcome (Py.dict ScrapingResult) :=
  let '(t, o) := scrape_all_async self w limit (Some (fun _ _ => Return tt)) schedule in
  (UiLog "🔄 Using async scraping mode (full scraping)..." "info" ::
     flat_map (ui_of_event stat_cards) t,
   o).

(** ** Vocabulary of the further properties *)

(** The well-formed entries of a list of feed entries, in order. *)
Definition well_formed (entries : list feed_entry) : list feed_fields :=
  omap (fun e => match e with FeedEntry f => Some f | MalformedEntry _ => None end)
       entries.

(** An article whose title and summary are present and have no more
    characters than the given bounds. *)
Definition bounded_fields (title_max summary_max : nat) (art : article) : Prop :=
  exists t s,
    Py.dict_get "title" art = Some t /\ Py.str_len t <= title_max /\
    Py.dict_get "summary" art = Some s /\ Py.str_len s <= summary_max.

Definition is_session_open (e : event) : bool :=
  match e with SessionOpen => true | _ => false end.

Definition is_session_close (e : event) : bool :=
  match e with SessionClose => true | _ => false end.

Definition is_log (e : event) : bool :=
  match e with Log _ _ => true | _ => false end.

(** The events of a trace that reach the page server: requests, pauses
    between them, and the session around them. *)
Definition is_page_access (e : event) : bool :=
  match e with
  | HttpGet _ | Sleep _ | SessionOpen | SessionClose | ParseHtml => true
  | _ => false
  end.

Definition is_write (e : event) : bool :=
  match e with WriteCsv _ _ _ | WriteJson _ _ _ _ => true | _ => false end.

Definition is_write_csv (e : event) : bool :=
  match e with WriteCsv _ _ _ => true | _ => false end.

Definition is_write_json (e : event) : bool :=
  match e with WriteJson _ _ _ _ => true | _ => false end.

(** The cards whose count is set, in order. *)
Fixpoint updated_cards (evs : list ui_event) : list string :=
  match evs with
  | [] => []
  | SetCount card _ :: evs' => card :: updated_cards evs'
  | _ :: evs' => updated_cards evs'
  end.

(** The aggregator events performed from the window. *)
Fixpoint core_events (evs : list ui_event) : trace :=
  match evs with
  | [] => []
  | Core e :: evs' => e :: core_events evs'
  | _ :: evs' => core_events evs'
  end.

(** The URLs opened in the browser. *)
Fixpoint opened (evs : list ui_event) : list string :=
  match evs with
  | [] => []
  | OpenBrowser url :: evs' => url :: opened evs'
  | _ :: evs' => opened evs'
  end.

(** An ASCII source identifier that [source_key] leaves alone: ASCII
    characters only, no upper-case letter and no space. *)
Fixpoint is_snake (s : string) : bool :=
  match s with
  | EmptyString => true
  | String c s' =>
      ((nat_of_ascii c <? 128)%nat && negb (Py.is_upper c) &&
       negb (Ascii.eqb c " ") && is_snake s')%bool
  end.

(** A configuration that allows no attempt at all. *)
Definition no_retry_config : RetryConfig :=
  {| max_retries := 0; base_delay := 1; max_delay := 10; backoff_factor := 2 |}.

(** A world whose page server answers 200 with an empty body. *)
Definition empty_page_world : world :=
  {| feedparser_parse := feedparser_parse sample_world;
     session_get := fun _ _ => HttpResponse 200 (Return "");
     find_all_article := find_all_article sample_world;
     now_strftime := now_strftime sample_world |}.

(** A world whose page cannot be parsed. *)
Definition unparsable_page_world : world :=
  {| feedparser_parse := feedparser_parse sample_world;
     session_get := fun _ _ => HttpResponse 200 (Return "<html");
     find_all_article := fun _ => Raise "parser error";
     now_strftime := now_strftime sample_world |}.

(** A file system on which no file can be opened. *)
Definition read_only_save_world : save_world :=
  {| open_w := fun _ => Raise "Permission denied";
     timestamp_now := "20240514_193000";
     isoformat_now := "2024-05-14T19:30:00.000000" |}.

(** A file system on which only the CSV file can be opened. *)
Definition csv_only_save_world : save_world :=
  {| open_w := fun name =>
       if String.eqb name "cybersecurity_news_20240514_193000.csv"
       then Return tt else Raise "Permission denied";
     timestamp_now := "20240514_193000";
     isoformat_now := "2024-05-14T19:30:00.000000" |}.

Definition sample_results : Py.dict ScrapingResult :=
  [ ("krebs_security",
     mkScrapingResult "krebs_security" [] "error" (Some "Failed to fetch"));
    ("gb_hackers",
     mkScrapingResult "gb_hackers"
       [ [ ("title", "Botnet takedown"); ("url", "N/A"); ("summary", "");
           ("published", "2024-05-14 19:30"); ("source", "Gb Hackers") ] ]
       "success" None) ].


(** The number of events of a trace that satisfy a test. *)
Definition count_events (p : event -> bool) (t : trace) : nat :=
  length (List.filter p t).

(** The events of the retry loop: pauses, requests and error logs. *)
Definition is_retry_event (e : event) : bool :=
  match e with
  | Sleep _ | HttpGet _ | Log ERROR _ => true
  | _ => false
  end.

(** Parsing the fetched page raises. *)
Definition page_parse_raises (cfg : RetryConfig) (w : world) : bool :=
  match first_body (session_get w krebs_url) (seq 0 (Z.to_nat (max_retries cfg))) with
  | Some html =>
      (truthy html &&
       match find_all_article w html with Raise _ => true | Return _ => false end)%bool
  | None => false
  end.

(** The keys of the article dictionary of the asynchronous feed
    scrapers. *)
Definition async_feed_keys : list string :=
  ["title"; "url"; "summary"; "published"; "source"].

(** The order of [sorted] on strings: strictly before, by code point. *)
Definition str_lt (x y : string) : Prop := String.compare x y = Lt.

(** The names of the two files of an export. *)
Definition csv_name (sw : save_world) : string :=
  "cybersecurity_news_" +:+ timestamp_now sw +:+ ".csv".

Definition json_name (sw : save_world) : string :=
  "cybersecurity_news_" +:+ timestamp_now sw +:+ ".json".

(** The feed that the fetcher of a source hands to the feed parser, if
    it parses one: the page scraper parses none, and [fetch_rss_feed]
    parses none for a source without a configured URL. *)
Definition feed_url (self : CybersecurityAggregator) (d : descriptor)
    : option string :=
  match d with
  | DarkReading => Some "https://www.darkreading.com/rss.xml"
  | BleepingComputer => Some "https://www.bleepingcomputer.com/feed/"
  | KrebsSecurity => None
  | RssFeed src =>
      match rss_aggregator self !! src with
      | Some url => if truthy url then Some url else None
      | None => None
      end
  end.



(** A story whose title links to the text "N/A". *)
Definition sentinel_story : story :=
  {| find_h2_entry_title :=
       Some {| get_text := "Placeholder";
               find_a := Some {| href := Some "N/A" |} |};
     find_h2_h3 := None;
     find_div_entry_summary := None;
     find_p := None |}.

(** A world whose page holds that story only. *)
Definition sentinel_href_world : world :=
  {| feedparser_parse := feedparser_parse sample_world;
     session_get := fun _ _ => HttpResponse 200 (Return "<html>one story</html>");
     find_all_article := fun _ => Return [Story sentinel_story];
     now_strftime := now_strftime sample_world |}.

(** * Reasoning about computations *)

Section Hoare.
Context {A : Type}.

Lemma returns_ensures (m : io A) (P : A -> Prop) :
  returns m P -> ensures m P.
Proof. unfold returns, ensures. by destruct (outcome_of m). Qed.

Lemma returns_exists (m : io A) (P : A -> Prop) :
  returns m P <-> exists a, outcome_of m = Return a /\ P a.
Proof.
  unfold returns. destruct (outcome_of m) as [a|e]; split.
  - intros H. by exists a.
  - by intros (a' & [= ->] & H).
  - intros [].
  - by intros (a' & [=] & _).
Qed.

Lemma ensures_ret (a : A) (P : A -> Prop) : P a -> ensures (mret a) P.
Proof. done. Qed.

Lemma returns_ret (a : A) (P : A -> Prop) : P a -> returns (mret a) P.
Proof. done. Qed.

Lemma ensures_weaken (m : io A) (P Q : A -> Prop) :
  (forall a, P a -> Q a) -> ensures m P -> ensures m Q.
Proof. unfold ensures. destruct (outcome_of m); auto. Qed.

Lemma returns_weaken (m : io A) (P Q : A -> Prop) :
  (forall a, P a -> Q a) -> returns m P -> returns m Q.
Proof. unfold returns. destruct (outcome_of m); auto. Qed.

(** A handler that always returns makes the whole [try] return. *)
Lemma returns_try (body : io A) (handler : string -> io A) (P : A -> Prop) :
  ensures body P -> (forall e, returns (handler e) P) ->
  returns (try_except body handler) P.
Proof.
  unfold ensures, returns, try_except, outcome_of.
  destruct body as [t [a|e]]; simpl; [done|].
  intros _ H. specialize (H e). by destruct (handler e) as [t' [a|e']].
Qed.
End Hoare.

Section HoareBind.
Context {A B : Type}.

Lemma outcome_bind (m : io A) (f : A -> io B) :
  outcome_of (m ≫= f) =
  match outcome_of m with
  | Return a => outcome_of (f a)
  | Raise e => Raise e
  end.
Proof.
  destruct m as [t [a|e]]; [|done].
  unfold mbind, io_mbind, io_bind, outcome_of; simpl. by destruct (f a).
Qed.

Lemma trace_bind (m : io A) (f : A -> io B) :
  trace_of (m ≫= f) =
  match outcome_of m with
  | Return a => trace_of m ++ trace_of (f a)
  | Raise e => trace_of m
  end.
Proof.
  destruct m as [t [a|e]]; [|done].
  unfold mbind, io_mbind, io_bind, trace_of, outcome_of; simpl.
  by destruct (f a).
Qed.

Lemma ensures_bind (m : io A) (f : A -> io B) (P : B -> Prop) :
  ensures m (fun a => ensures (f a) P) -> ensures (m ≫= f) P.
Proof.
  unfold ensures at 1 3. rewrite outcome_bind.
  by destruct (outcome_of m).
Qed.

Lemma ensures_bind_any (m : io A) (f : A -> io B) (P : B -> Prop) :
  (forall a, ensures (f a) P) -> ensures (m ≫= f) P.
Proof.
  intros H. apply ensures_bind. unfold ensures at 1.
  destruct (outcome_of m); auto.
Qed.

Lemma returns_bind (m : io A) (f : A -> io B) (P : B -> Prop) :
  returns m (fun a => returns (f a) P) -> returns (m ≫= f) P.
Proof.
  unfold returns at 1 3. rewrite outcome_bind.
  by destruct (outcome_of m).
Qed.
End HoareBind.

Lemma outcome_try {A} (body : io A) (handler : string -> io A) :
  outcome_of (try_except body handler) =
  match outcome_of body with
  | Return a => Return a
  | Raise e => outcome_of (handler e)
  end.
Proof.
  destruct body as [t [a|e]]; [done|].
  unfold try_except, outcome_of; simpl. by destruct (handler e).
Qed.

Lemma trace_try {A} (body : io A) (handler : string -> io A) :
  trace_of (try_except body handler) =
  match outcome_of body with
  | Return a => trace_of body
  | Raise e => trace_of body ++ trace_of (handler e)
  end.
Proof.
  destruct body as [t [a|e]]; [done|].
  unfold try_except, trace_of, outcome_of; simpl. by destruct (handler e).
Qed.

(** * The fetchers never raise *)

Lemma fetched_success (id : string) (arts : list article) :
  fetched id (mkScrapingResult id arts "success" None).
Proof. by repeat split. Qed.

Lemma fetched_error (id e : string) :
  fetched id (mkScrapingResult id [] "error" (Some e)).
Proof. by repeat split. Qed.

Lemma scrape_feed_async_fetched (id lbl feed_url debug_prefix : string)
    (w : world) (limit : Z) :
  returns (scrape_feed_async id lbl feed_url debug_prefix w limit) (fetched id).
Proof.
  apply returns_try.
  - do 3 (apply ensures_bind_any; intros ?).
    apply ensures_ret, fetched_success.
  - intros e. apply returns_bind; simpl. apply fetched_error.
Qed.

Lemma scrape_krebs_security_fetched (cfg : RetryConfig) (w : world) (limit : Z) :
  returns (scrape_krebs_security cfg w limit) (fetched "krebs_security").
Proof.
  apply returns_try.
  - do 2 (apply ensures_bind_any; intros ?).
    destruct (not_html _).
    + apply ensures_bind_any; intros _. apply ensures_ret, fetched_error.
    + do 3 (apply ensures_bind_any; intros ?).
      apply ensures_ret, fetched_success.
  - intros e. apply returns_bind; simpl. apply fetched_error.
Qed.

Lemma fetch_rss_feed_fetched (rss_feeds : gmap string string) (w : world)
    (src : string) (limit : Z) :
  returns (fetch_rss_feed rss_feeds w src limit) (fetched src).
Proof.
  apply returns_try.
  - cbv zeta. destruct (negb _).
    + apply ensures_ret, fetched_error.
    + do 3 (apply ensures_bind_any; intros ?).
      apply ensures_ret, fetched_success.
  - intros e. apply returns_bind; simpl. apply fetched_error.
Qed.

Lemma fetch_fetched (self : CybersecurityAggregator) (w : world) (limit : Z)
    (d : descriptor) :
  returns (fetch self w limit d) (fetched (label d)).
Proof.
  destruct d; simpl.
  - apply scrape_feed_async_fetched.
  - apply scrape_feed_async_fetched.
  - apply scrape_krebs_security_fetched.
  - apply fetch_rss_feed_fetched.
Qed.

(** C5. Every result produced by a fetch operation (the two feed
    scrapers, the page scraper and the RSS fetcher) is returned, not
    raised, and satisfies the invariant: a successful status implies that
    the error field is absent, and the article list is non-empty only for a
    successful status, so an error result carries an empty list. *)
Theorem C5_result_invariant (cfg : RetryConfig) (rss_feeds : gmap string string)
    (w : world) (src : string) (limit : Z) :
  let holds (m : io ScrapingResult) :=
    exists r, outcome_of m = Return r /\
              (status r = "success" -> error r = None) /\
              (articles r <> [] -> status r = "success") /\
              (status r = "error" -> articles r = []) in
  holds (scrape_dark_reading w limit) /\
  holds (scrape_bleeping_computer w limit) /\
  holds (scrape_krebs_security cfg w limit) /\
  holds (fetch_rss_feed rss_feeds w src limit).
Proof.
  assert (Hinv : forall id m, returns m (fetched id) ->
    exists r, outcome_of m = Return r /\
              (status r = "success" -> error r = None) /\
              (articles r <> [] -> status r = "success") /\
              (status r = "error" -> articles r = [])).
  { intros id m (r & Hr & _ & Hs & Ha)%returns_exists.
    exists r. repeat split; try done.
    intros He. destruct (articles r) as [|a l]; [done|].
    rewrite Ha in He; [discriminate He | done]. }
  cbv zeta. repeat split.
  - eapply Hinv, scrape_feed_async_fetched.
  - eapply Hinv, scrape_feed_async_fetched.
  - eapply Hinv, scrape_krebs_security_fetched.
  - eapply Hinv, fetch_rss_feed_fetched.
Qed.

(** C10. Fetching the feed of a source that has no configured feed URL
    returns, without raising and without any effect (so without retrieving
    anything from the network), the error result whose message is
    "No RSS feed configured" and whose article list is empty. *)
Theorem C10_unconfigured_feed (rss_feeds : gmap string string) (w : world)
    (src : string) (limit : Z) :
  rss_feeds !! src = None ->
  fetch_rss_feed rss_feeds w src limit =
    ([], Return (mkScrapingResult src [] "error" (Some "No RSS feed configured"))).
Proof. intros H. unfold fetch_rss_feed. by rewrite H. Qed.

Lemma C10_unconfigured_feed_witness :
  rss_feeds_init !! "threat_post" = None /\
  fetch_rss_feed rss_feeds_init sample_world "threat_post" 20 =
    ([], Return (mkScrapingResult "threat_post" [] "error"
                   (Some "No RSS feed configured"))).
Proof.
  assert (H : rss_feeds_init !! "threat_post" = None) by (vm_compute; reflexivity).
  split; [exact H | exact (C10_unconfigured_feed rss_feeds_init sample_world "threat_post" 20 H)].
Defined.

(** * The embedding at work *)

Example backoff_delay_values :
  map (backoff_delay retry_config) [0; 1; 2; 3; 4] = [1; 2; 4; 8; 10]%Z.
Proof. reflexivity. Qed.

Example source_key_of_a_label : source_key "Dark Reading" = "dark_reading".
Proof. reflexivity. Qed.

Example title_of_a_source :
  Py.title (Py.replace "_" " " "the_hacker_news") = "The Hacker News".
Proof. reflexivity. Qed.

Example slice_to_examples :
  Py.slice_to 2 [1; 2; 3] = [1; 2] /\ Py.slice_to 5 [1; 2; 3] = [1; 2; 3] /\
  Py.slice_to (-1) [1; 2; 3] = [1; 2] /\ Py.slice_to (-7) [1; 2; 3] = [].
Proof. repeat split. Qed.

(** Truncation and length count characters: three two-byte letters are
    three characters. *)
Example str_take_characters :
  Py.str_len "ééé" = 3 /\ String.length "ééé" = 6 /\
  Py.str_take 5 "ééé" = "ééé" /\ Py.str_take 2 "ééé" = "éé" /\
  Py.str_take 2 "a✅b" = "a✅" /\ Py.str_take 0 "ééé" = "".
Proof. repeat split. Qed.

Example dict_set_keeps_position :
  Py.dict_set "a" 3 [("a", 1); ("b", 2)] = [("a", 3); ("b", 2)] /\
  Py.dict_set "c" 3 [("a", 1); ("b", 2)] = [("a", 1); ("b", 2); ("c", 3)].
Proof. split; reflexivity. Qed.

(** The page is served on the second attempt: one failure is logged, the
    loop pauses 2 and the only story with a link is kept. *)
Example scrape_krebs_security_sample :
  scrape_krebs_security retry_config sample_world 10 =
  ([ SessionOpen; HttpGet krebs_url; Log ERROR "Attempt 1 error: timeout";
     Sleep 2; HttpGet krebs_url; ParseHtml; SessionClose ],
   Return (mkScrapingResult "krebs_security"
             [[ ("title", "Ransomware gang indicted");
                ("url", "https://krebsonsecurity.com/2024/05/indicted/");
                ("summary", "Prosecutors unsealed charges.");
                ("scraped_at", "2024-05-14 19:30");
                ("source", "Krebs on Security") ]]
             "success" None)).
Proof. vm_compute. reflexivity. Qed.

(** A feed entry without link, summary, date or author gets the
    defaults; the malformed entry before it is skipped. *)
Example fetch_rss_feed_sample :
  outcome_of (fetch_rss_feed rss_feeds_init sample_world "security_week" 3) =
  Return (mkScrapingResult "security_week"
            [ [ ("title", "Patch Tuesday fixes two zero-days");
                ("url", "https://example.org/patch-tuesday");
                ("summary", "Two actively exploited flaws were fixed.");
                ("published", "Tue, 14 May 2024 17:00:00 +0000");
                ("source", "Security Week");
                ("author", "Staff") ];
              [ ("title", "Botnet takedown");
                ("url", "N/A");
                ("summary", "");
                ("published", "2024-05-14 19:30");
                ("source", "Security Week") ] ]
            "success" None).
Proof. vm_compute. reflexivity. Qed.

(** Two sources of five articles each: ten articles, the first source's
    before the second's. *)
Example run_scraping_collect_two_sources :
  let five (s : string) := map (fun t => [("title", t); ("source", s)])
                               ["1"; "2"; "3"; "4"; "5"] in
  let a := mkScrapingResult "gb_hackers" (five "A") "success" None in
  let b := mkScrapingResult "security_week" (five "B") "success" None in
  run_scraping_collect [("gb_hackers", a); ("security_week", b)] =
    (five "A" ++ five "B", 10%Z).
Proof. reflexivity. Qed.

(** * The retry loop *)

Lemma attempt_once_actions (cfg : RetryConfig) (url : string)
    (get : nat -> http_outcome) (a : nat) :
  actions (trace_of (attempt_once cfg url get a)) = attempt_actions cfg url a.
Proof.
  unfold attempt_once, sleep_before, attempt_actions, backoff_delay.
  destruct (get a) as [e|code [body|e]]; destruct a as [|a];
    try destruct (code =? 200)%Z; reflexivity.
Qed.

Lemma attempt_once_outcome (cfg : RetryConfig) (url : string)
    (get : nat -> http_outcome) (a : nat) :
  outcome_of (attempt_once cfg url get a) = Return (accepted_body (get a)).
Proof.
  unfold attempt_once, sleep_before, accepted_body.
  destruct (get a) as [e|code [body|e]]; destruct a as [|a];
    try destruct (code =? 200)%Z; reflexivity.
Qed.

Lemma actions_app (t1 t2 : trace) : actions (t1 ++ t2) = actions t1 ++ actions t2.
Proof.
  induction t1 as [|ev t1 IH]; [done|].
  destruct ev; simpl; by rewrite ?IH.
Qed.

Lemma sleeps_actions (t : trace) : sleeps (actions t) = sleeps t.
Proof.
  induction t as [|ev t IH]; [done|].
  destruct ev; simpl; by rewrite ?IH.
Qed.

Lemma gets_actions (t : trace) : gets (actions t) = gets t.
Proof.
  induction t as [|ev t IH]; [done|].
  destruct ev; simpl; by rewrite ?IH.
Qed.

Lemma retry_loop_actions (cfg : RetryConfig) (url : string)
    (get : nat -> http_outcome) (l : list nat) :
  actions (trace_of (retry_loop cfg url get l)) =
  flat_map (attempt_actions cfg url) (take (attempts_made get l) l).
Proof.
  induction l as [|a l IH]; [done|].
  cbn [retry_loop attempts_made]. rewrite trace_bind, attempt_once_outcome.
  rewrite actions_app, attempt_once_actions.
  destruct (accepted_body (get a)) as [body|].
  - cbn. by rewrite take_0.
  - cbn [take flat_map]. by rewrite IH.
Qed.

Lemma retry_loop_outcome (cfg : RetryConfig) (url : string)
    (get : nat -> http_outcome) (l : list nat) :
  outcome_of (retry_loop cfg url get l) = Return (first_body get l).
Proof.
  induction l as [|a l IH]; [done|].
  cbn [retry_loop first_body]. rewrite outcome_bind, attempt_once_outcome.
  by destruct (accepted_body (get a)).
Qed.

Lemma attempts_made_le (get : nat -> http_outcome) (l : list nat) :
  attempts_made get l <= length l.
Proof.
  induction l as [|a l IH]; simpl; [lia|].
  destruct (accepted_body (get a)); lia.
Qed.

Lemma take_seq (k n : nat) : k <= n -> take k (seq 0 n) = seq 0 k.
Proof.
  intros H. replace n with (k + (n - k)) by lia.
  rewrite seq_app. apply take_app_length'. by rewrite length_seq.
Qed.

Lemma scrape_with_retry_actions (cfg : RetryConfig) (url : string)
    (get : nat -> http_outcome) :
  let n := Z.to_nat (max_retries cfg) in
  actions (trace_of (scrape_with_retry cfg url get)) =
  flat_map (attempt_actions cfg url) (seq 0 (attempts_made get (seq 0 n))).
Proof.
  intros n. unfold scrape_with_retry. rewrite retry_loop_actions.
  fold n. rewrite take_seq; [done|].
  etrans; [apply attempts_made_le|]. by rewrite length_seq.
Qed.

Lemma total_wait_actions (t : trace) : total_wait (actions t) = total_wait t.
Proof. unfold total_wait. by rewrite sleeps_actions. Qed.

(** C2. In every run of the retry loop, under every configuration, the
    network actions are those of attempts [0 .. k-1] for some [k] not
    above [max_retries]: attempt 0 is a bare request, and every attempt
    [a >= 1] is preceded by a pause of
    [min(base_delay * backoff_factor^a, max_delay)].  With the program's
    configuration (3, 1, 10, 2) no run waits more than 6 in total, and a
    run whose three attempts all fail pauses 2 and then 4 (total 6) before
    giving up. *)
Theorem C2_backoff_delays :
  (forall (cfg : RetryConfig) (url : string) (get : nat -> http_outcome),
     exists k, k <= Z.to_nat (max_retries cfg) /\
       actions (trace_of (scrape_with_retry cfg url get)) =
         flat_map (attempt_actions cfg url) (seq 0 k) /\
       attempt_actions cfg url 0 = [HttpGet url] /\
       forall a, attempt_actions cfg url (S a) =
         [ Sleep (Z.min (base_delay cfg * backoff_factor cfg ^ Z.of_nat (S a))
                        (max_delay cfg));
           HttpGet url ]) /\
  (forall (url : string) (get : nat -> http_outcome),
     (total_wait (trace_of (scrape_with_retry retry_config url get)) <= 6)%Z) /\
  (forall (url e : string),
     let run := scrape_with_retry retry_config url (fun _ => HttpError e) in
     actions (trace_of run) =
       [HttpGet url; Sleep 2; HttpGet url; Sleep 4; HttpGet url] /\
     sleeps (trace_of run) = [2; 4]%Z /\
     total_wait (trace_of run) = 6%Z /\
     outcome_of run = Return None).
Proof.
  split; [|split].
  - intros cfg url get.
    exists (attempts_made get (seq 0 (Z.to_nat (max_retries cfg)))).
    split; [|split; [|done]].
    + etrans; [apply attempts_made_le|]. by rewrite length_seq.
    + apply scrape_with_retry_actions.
  - intros url get.
    rewrite <- total_wait_actions, scrape_with_retry_actions.
    pose proof (attempts_made_le get (seq 0 (Z.to_nat (max_retries retry_config)))) as Hle.
    rewrite length_seq in Hle.
    destruct (attempts_made get _) as [|[|[|[|k]]]]; try (vm_compute; discriminate).
    vm_compute in Hle. lia.
  - intros url e run.
    assert (Ha : actions (trace_of run) =
                 [HttpGet url; Sleep 2; HttpGet url; Sleep 4; HttpGet url]).
    { unfold run. by rewrite scrape_with_retry_actions. }
    split; [exact Ha|].
    split; [by rewrite <- sleeps_actions, Ha|].
    split; [by rewrite <- total_wait_actions, Ha|].
    unfold run, scrape_with_retry. by rewrite retry_loop_outcome.
Qed.

Lemma gets_flat_map_attempts (cfg : RetryConfig) (url : string) (l : list nat) :
  gets (flat_map (attempt_actions cfg url) l) = length l.
Proof.
  induction l as [|a l IH]; [done|].
  destruct a; simpl; by rewrite IH.
Qed.

Lemma scrape_with_retry_gets (cfg : RetryConfig) (url : string)
    (get : nat -> http_outcome) :
  gets (trace_of (scrape_with_retry cfg url get)) =
  attempts_made get (seq 0 (Z.to_nat (max_retries cfg))).
Proof.
  rewrite <- gets_actions, scrape_with_retry_actions, gets_flat_map_attempts.
  apply length_seq.
Qed.

(** The first accepted attempt decides the loop. *)
Lemma first_accepted_seq (get : nat -> http_outcome) (len s a : nat) (body : string) :
  s <= a < s + len ->
  accepted_body (get a) = Some body ->
  (forall b, s <= b < a -> accepted_body (get b) = None) ->
  first_body get (seq s len) = Some body /\
  attempts_made get (seq s len) = S (a - s).
Proof.
  revert s. induction len as [|len IH]; intros s Hrange Hacc Hnone; [lia|].
  simpl. destruct (decide (a = s)) as [->|Hne].
  - rewrite Hacc. split; [done|]. f_equal. lia.
  - rewrite (Hnone s) by lia.
    destruct (IH (S s)) as [Hb Hm]; [lia|done|intros b Hb; apply Hnone; lia|].
    split; [done|]. rewrite Hm. lia.
Qed.

Lemma none_accepted_seq (get : nat -> http_outcome) (len s : nat) :
  (forall a, s <= a < s + len -> accepted_body (get a) = None) ->
  first_body get (seq s len) = None /\
  attempts_made get (seq s len) = len.
Proof.
  revert s. induction len as [|len IH]; intros s Hnone; [done|].
  simpl. rewrite (Hnone s) by lia.
  destruct (IH (S s)) as [Hb Hm]; [intros a Ha; apply Hnone; lia|].
  by rewrite Hb, Hm.
Qed.

Lemma scrape_with_retry_outcome (cfg : RetryConfig) (url : string)
    (get : nat -> http_outcome) :
  outcome_of (scrape_with_retry cfg url get) =
  Return (first_body get (seq 0 (Z.to_nat (max_retries cfg)))).
Proof. apply retry_loop_outcome. Qed.

(** What the page scraper returns, case by case on the fetched page. *)
Lemma scrape_krebs_security_outcome (cfg : RetryConfig) (w : world) (limit : Z) :
  outcome_of (scrape_krebs_security cfg w limit) =
  Return
    match first_body (session_get w krebs_url) (seq 0 (Z.to_nat (max_retries cfg))) with
    | Some html =>
        if truthy html then
          match find_all_article w html with
          | Return elements =>
              mkScrapingResult "krebs_security"
                (story_loop w 0 (Py.slice_to limit elements)) "success" None
          | Raise e => mkScrapingResult "krebs_security" [] "error" (Some e)
          end
        else mkScrapingResult "krebs_security" [] "error" (Some "Failed to fetch")
    | None => mkScrapingResult "krebs_security" [] "error" (Some "Failed to fetch")
    end.
Proof.
  unfold scrape_krebs_security.
  rewrite outcome_try, outcome_bind. cbn [outcome_of emit snd].
  rewrite outcome_bind. fold (outcome_of (scrape_with_retry cfg krebs_url (session_get w krebs_url))).
  rewrite scrape_with_retry_outcome.
  destruct (first_body _ _) as [html|]; [|done].
  unfold not_html. destruct (truthy html); [|done].
  cbn [negb]. rewrite outcome_bind. cbn [outcome_of emit snd].
  rewrite outcome_bind. cbn [from_option id lift outcome_of snd].
  by destruct (find_all_article w html).
Qed.

(** C3 (as the code has it). The retry loop performs at most
    [max_retries] requests; it returns the body of the first attempt whose
    response has status 200 and a readable text, every other response or
    exception counting as a failed attempt; and when no attempt is accepted
    it returns nothing after [max_retries] requests, upon which the page
    scraper returns the error result with cause "Failed to fetch". *)
Theorem C3_retry_loop_amended (cfg : RetryConfig) (w : world) (limit : Z) :
  let get := session_get w krebs_url in
  let n := Z.to_nat (max_retries cfg) in
  let run := scrape_with_retry cfg krebs_url get in
  gets (trace_of run) <= n /\
  (forall a body,
     a < n ->
     get a = HttpResponse 200 (Return body) ->
     (forall b, b < a -> accepted_body (get b) = None) ->
     outcome_of run = Return (Some body) /\ gets (trace_of run) = S a) /\
  ((forall a, a < n -> accepted_body (get a) = None) ->
     outcome_of run = Return None /\
     gets (trace_of run) = n /\
     outcome_of (scrape_krebs_security cfg w limit) =
       Return (mkScrapingResult "krebs_security" [] "error" (Some "Failed to fetch"))).
Proof.
  intros get n run. unfold run.
  rewrite scrape_with_retry_gets, scrape_with_retry_outcome. fold n.
  split; [|split].
  - etrans; [apply attempts_made_le|]. by rewrite length_seq.
  - intros a body Ha Hget Hnone.
    destruct (first_accepted_seq get n 0 a body) as [Hb Hm].
    + lia.
    + by rewrite Hget.
    + intros b Hb. apply Hnone. lia.
    + rewrite Hb, Hm. split; [done|]. f_equal. lia.
  - intros Hnone.
    destruct (none_accepted_seq get n 0) as [Hb Hm].
    { intros a Ha. apply Hnone. lia. }
    rewrite Hb, Hm. repeat split.
    rewrite scrape_krebs_security_outcome. fold get n. by rewrite Hb.
Qed.

Lemma C3_retry_loop_amended_witness :
  outcome_of (scrape_with_retry retry_config krebs_url (session_get sample_world krebs_url))
    = Return (Some "<html>two stories</html>") /\
  gets (trace_of (scrape_with_retry retry_config krebs_url (session_get sample_world krebs_url)))
    = 2 /\
  outcome_of (scrape_krebs_security retry_config no_content_world 10) =
    Return (mkScrapingResult "krebs_security" [] "error" (Some "Failed to fetch")).
Proof.
  destruct (C3_retry_loop_amended retry_config sample_world 10) as (_ & Hfirst & _).
  destruct (C3_retry_loop_amended retry_config no_content_world 10) as (_ & _ & Hnone).
  destruct (Hfirst 1 "<html>two stories</html>") as [Ho Hg].
  - vm_compute. lia.
  - reflexivity.
  - intros b Hb. assert (b = 0) as -> by lia. reflexivity.
  - destruct Hnone as (_ & _ & Hk).
    + intros a _. reflexivity.
    + exact (conj Ho (conj Hg Hk)).
Defined.

(** C3, as stated, fails: a response of the 2xx class other than 200 is
    not accepted (three answers 204 with a body exhaust the retries), and
    the cause reported is "Failed to fetch", not "fetch failed". *)
Lemma C3_counterexample :
  is_2xx 204 = true /\
  session_get no_content_world krebs_url 0 = HttpResponse 204 (Return "<html></html>") /\
  outcome_of (scrape_with_retry retry_config krebs_url
                (session_get no_content_world krebs_url)) = Return None /\
  outcome_of (scrape_krebs_security retry_config no_content_world 10) =
    Return (mkScrapingResult "krebs_security" [] "error" (Some "Failed to fetch")) /\
  Some "Failed to fetch" <> Some "fetch failed".
Proof. repeat split; try (vm_compute; reflexivity). discriminate. Qed.

(** * What the fetchers return *)

Lemma feed_loop_outcome (build : nat -> feed_fields -> article)
    (debug_prefix : string) (i : nat) (entries : list feed_entry) :
  outcome_of (feed_loop build debug_prefix i entries) =
  Return (feed_built build i entries).
Proof.
  revert i. induction entries as [|[e|f] entries IH]; intros i; [done| |].
  - cbn [feed_loop feed_built]. rewrite outcome_bind. apply IH.
  - cbn [feed_loop feed_built]. by rewrite outcome_bind, IH.
Qed.

Lemma feed_built_from (build : nat -> feed_fields -> article)
    (entries : list feed_entry) (i : nat) :
  Forall (fun art => exists j f, entries !! j = Some (FeedEntry f) /\
                                 art = build (i + j) f)
         (feed_built build i entries).
Proof.
  revert i. induction entries as [|[e|f] entries IH]; intros i; simpl.
  - constructor.
  - eapply Forall_impl; [apply (IH (S i))|].
    intros art (j & f & Hj & ->). exists (S j), f. split; [done|]. f_equal. lia.
  - constructor.
    + exists 0, f. split; [done|]. f_equal. lia.
    + eapply Forall_impl; [apply (IH (S i))|].
      intros art (j & f' & Hj & ->). exists (S j), f'. split; [done|]. f_equal. lia.
Qed.

Lemma scrape_feed_async_outcome (id lbl feed_url debug_prefix : string)
    (w : world) (limit : Z) :
  outcome_of (scrape_feed_async id lbl feed_url debug_prefix w limit) =
  Return
    match feedparser_parse w feed_url with
    | Return feed =>
        mkScrapingResult id
          (feed_built (async_feed_article w id lbl) 0 (Py.slice_to limit feed))
          "success" None
    | Raise e => mkScrapingResult id [] "error" (Some e)
    end.
Proof.
  unfold scrape_feed_async.
  rewrite outcome_try, outcome_bind. cbn [outcome_of emit snd].
  rewrite outcome_bind. cbn [lift outcome_of snd].
  destruct (feedparser_parse w feed_url) as [feed|e]; [|done].
  by rewrite outcome_bind, feed_loop_outcome.
Qed.

Lemma fetch_rss_feed_outcome (rss_feeds : gmap string string) (w : world)
    (src : string) (limit : Z) :
  outcome_of (fetch_rss_feed rss_feeds w src limit) =
  Return
    (if truthy (default "" (rss_feeds !! src)) then
       match feedparser_parse w (default "" (rss_feeds !! src)) with
       | Return feed =>
           mkScrapingResult src
             (feed_built (rss_article w src) 0 (Py.slice_to limit feed))
             "success" None
       | Raise e => mkScrapingResult src [] "error" (Some e)
       end
     else mkScrapingResult src [] "error" (Some "No RSS feed configured")).
Proof.
  unfold fetch_rss_feed. cbv zeta. rewrite outcome_try.
  destruct (truthy _); [|done]. cbn [negb].
  rewrite outcome_bind. cbn [outcome_of emit snd].
  rewrite outcome_bind. cbn [lift outcome_of snd].
  destruct (feedparser_parse w _) as [feed|e]; [|done].
  by rewrite outcome_bind, feed_loop_outcome.
Qed.

Lemma async_feed_article_published (w : world) (id lbl : string) (i : nat)
    (f : feed_fields) :
  Py.dict_get "published" (async_feed_article w id lbl i f) =
  Some (match entry_published f with
        | Some p => p
        | None => now_strftime w id i "%Y-%m-%d %H:%M"
        end).
Proof. unfold async_feed_article. destruct (entry_published f); reflexivity. Qed.

Lemma rss_article_published (w : world) (src : string) (i : nat)
    (f : feed_fields) :
  Py.dict_get "published" (rss_article w src i f) =
  Some (match entry_published f with
        | Some p => p
        | None => now_strftime w src i "%Y-%m-%d %H:%M"
        end).
Proof.
  unfold rss_article. destruct (entry_author f), (entry_published f); reflexivity.
Qed.

Lemma story_article_link (now : string) (s : story) :
  match story_article now s, story_link (Story s) with
  | Some art, Some u =>
      u <> "" /\
      Py.dict_get "url" art = Some u /\
      Py.dict_get "published" art = None /\
      Py.dict_get "scraped_at" art = Some now
  | None, None => True
  | _, _ => False
  end.
Proof.
  unfold story_article, story_link, story_title_elem.
  destruct (find_h2_entry_title s) as [[txt [[[u|]]|]]|];
    [| | |destruct (find_h2_h3 s) as [[txt [[[u|]]|]]|]]; simpl; try done;
    destruct u; simpl; done.
Qed.

Lemma story_loop_urls (w : world) (elements : list story_element) (i : nat) :
  map (Py.dict_get "url") (story_loop w i elements) =
  map Some (omap story_link elements).
Proof.
  revert i. induction elements as [|[|s] elements IH]; intros i; [done|apply IH|].
  cbn [story_loop omap list_omap].
  pose proof (story_article_link (now_strftime w "krebs_security" i time_format) s) as H.
  destruct (story_article _ s) as [art|], (story_link (Story s)) as [u|];
    try done.
  destruct H as (_ & Hu & _). cbn [map]. by rewrite Hu, IH.
Qed.

Lemma story_loop_stamps (w : world) (elements : list story_element) (i : nat) :
  Forall (fun art => Py.dict_get "published" art = None) (story_loop w i elements) /\
  map (Py.dict_get "scraped_at") (story_loop w i elements) =
    map Some (page_stamps w i elements).
Proof.
  revert i. induction elements as [|[|s] elements IH]; intros i;
    [by split|apply IH|].
  cbn [story_loop page_stamps].
  pose proof (story_article_link (now_strftime w "krebs_security" i time_format) s) as H.
  destruct (IH (S i)) as [IHp IHs].
  destruct (story_article _ s) as [art|], (story_link (Story s)) as [u|];
    try done.
  destruct H as (_ & _ & Hp & Hs). split; [by constructor|].
  cbn [map]. by rewrite Hs, IHs.
Qed.

Lemma story_links_nonempty (elements : list story_element) :
  Forall (fun u => u <> "") (omap story_link elements).
Proof.
  induction elements as [|e elements IH]; [constructor|].
  cbn [omap list_omap]. destruct (story_link e) as [u|] eqn:He; [|done].
  constructor; [|done].
  destruct e as [|s]; [done|].
  pose proof (story_article_link "" s) as H. rewrite He in H.
  destruct (story_article "" s); [by destruct H|done].
Qed.

(** C7 (as the code has it). The page scraper always returns a result,
    and the URLs of its articles are, in order, exactly the links
    extracted from those walked entries that have one: each article's
    [url] is the non-empty [href] of the anchor of its entry's title
    element, taken as it stands, no default being ever substituted (so it
    is "N/A" only when the page's own [href] is "N/A"), and an entry from
    which no link can be extracted yields no article. *)
Theorem C7_scraped_urls_amended (cfg : RetryConfig) (w : world) (limit : Z) :
  exists r,
    outcome_of (scrape_krebs_security cfg w limit) = Return r /\
    map (Py.dict_get "url") (articles r) =
      map Some (omap story_link (page_entries cfg w limit)) /\
    length (articles r) =
      length (filter (fun e => is_Some (story_link e)) (page_entries cfg w limit)) /\
    Forall (fun u => u <> "") (omap story_link (page_entries cfg w limit)).
Proof.
  eexists. split; [apply scrape_krebs_security_outcome|].
  assert (Hlen : forall l : list story_element,
            length (omap story_link l) =
            length (filter (fun e => is_Some (story_link e)) l)).
  { induction l as [|e l IH]; [done|].
    cbn [omap list_omap]. rewrite filter_cons.
    destruct (story_link e) as [u|].
    - rewrite decide_True by eauto. simpl. by rewrite IH.
    - rewrite decide_False by (by intros [? ?]). done. }
  assert (Hurls : forall r l,
            map (Py.dict_get "url") (articles r) = map Some (omap story_link l) ->
            length (articles r) = length (filter (fun e => is_Some (story_link e)) l)).
  { intros r l H. rewrite <- Hlen.
    apply (f_equal length) in H. by rewrite !List.length_map in H. }
  unfold page_entries.
  destruct (first_body _ _) as [html|]; [|by repeat split; constructor].
  destruct (truthy html); [|by repeat split; constructor].
  destruct (find_all_article w html) as [elements|e];
    [|by repeat split; constructor].
  split; [apply story_loop_urls|].
  split; [apply Hurls, story_loop_urls|apply story_links_nonempty].
Qed.

(** C7, as stated, fails: for a page whose title anchor has the [href]
    "N/A", the article surfaced has the URL "N/A". *)
Lemma C7_counterexample :
  story_link (Story sentinel_story) = Some "N/A" /\
  exists r,
    outcome_of (scrape_krebs_security retry_config sentinel_href_world 10) = Return r /\
    status r = "success" /\
    map (Py.dict_get "url") (articles r) = [Some "N/A"].
Proof. split; [reflexivity|]. eexists. repeat split; vm_compute; reflexivity. Qed.

Lemma feed_built_published_list (w : world) (id : string)
    (build : nat -> feed_fields -> article) (entries : list feed_entry) (i : nat) :
  (forall j f, Py.dict_get "published" (build j f) =
               Some (match entry_published f with
                     | Some p => p
                     | None => now_strftime w id j "%Y-%m-%d %H:%M"
                     end)) ->
  map (Py.dict_get "published") (feed_built build i entries) =
  map Some (feed_published w id i entries).
Proof.
  intros Hbuild. revert i. induction entries as [|[e|f] entries IH]; intros i;
    [done|apply IH|].
  cbn [feed_built feed_published map]. by rewrite Hbuild, IH.
Qed.

(** C8 (as the code has it). Every article of a feed fetcher (the two
    feed scrapers and the RSS fetcher) carries a [published] field: the
    timestamp of the upstream entry it was built from when that entry has
    one, and otherwise the clock read with the format [%Y-%m-%d %H:%M]
    while that entry is handled.  The articles of the page scraper carry
    no [published] field; each carries, under [scraped_at], that clock
    reading for its own entry. *)
Theorem C8_published_amended (cfg : RetryConfig) (rss_feeds : gmap string string)
    (w : world) (src : string) (limit : Z) :
  (exists r, outcome_of (scrape_dark_reading w limit) = Return r /\
     map (Py.dict_get "published") (articles r) =
       map Some (feed_published w "dark_reading" 0
                   (feed_entries w "https://www.darkreading.com/rss.xml" limit))) /\
  (exists r, outcome_of (scrape_bleeping_computer w limit) = Return r /\
     map (Py.dict_get "published") (articles r) =
       map Some (feed_published w "bleeping_computer" 0
                   (feed_entries w "https://www.bleepingcomputer.com/feed/" limit))) /\
  (exists r, outcome_of (fetch_rss_feed rss_feeds w src limit) = Return r /\
     map (Py.dict_get "published") (articles r) =
       map Some (feed_published w src 0 (rss_feed_entries rss_feeds w src limit))) /\
  (exists r, outcome_of (scrape_krebs_security cfg w limit) = Return r /\
     Forall (fun art => Py.dict_get "published" art = None) (articles r) /\
     map (Py.dict_get "scraped_at") (articles r) =
       map Some (page_stamps w 0 (page_entries cfg w limit))).
Proof.
  split; [|split; [|split]].
  - eexists. split; [apply scrape_feed_async_outcome|].
    unfold feed_entries. destruct (feedparser_parse w _); [|done].
    apply feed_built_published_list, async_feed_article_published.
  - eexists. split; [apply scrape_feed_async_outcome|].
    unfold feed_entries. destruct (feedparser_parse w _); [|done].
    apply feed_built_published_list, async_feed_article_published.
  - eexists. split; [apply fetch_rss_feed_outcome|].
    unfold rss_feed_entries, feed_entries.
    destruct (rss_feeds !! src) as [url|]; cbn [from_option id]; [|done].
    destruct (truthy url); [|done].
    destruct (feedparser_parse w url); [|done].
    apply feed_built_published_list, rss_article_published.
  - eexists. split; [apply scrape_krebs_security_outcome|].
    unfold page_entries.
    destruct (first_body _ _) as [html|]; [|by split].
    destruct (truthy html); [|by split].
    destruct (find_all_article w html); [|by split].
    apply story_loop_stamps.
Qed.

(** C8, as stated, fails for the page scraper: the article it builds from
    the sample page has no [published] field. *)
Lemma C8_counterexample :
  exists r,
    outcome_of (scrape_krebs_security retry_config sample_world 10) = Return r /\
    status r = "success" /\
    map Py.keys (articles r) = [["title"; "url"; "summary"; "scraped_at"; "source"]] /\
    map (Py.dict_get "published") (articles r) = [None].
Proof. eexists. repeat split; vm_compute; reflexivity. Qed.

(** * Aggregation and export *)

(** Appending the articles of the successful results one result at a
    time is concatenating them. *)
Lemma fold_extend_success (rs : list ScrapingResult) (acc : list article) :
  fold_left extend_success rs acc =
  acc ++ concat (map articles (filter (fun r => status r = "success") rs)).
Proof.
  revert acc. induction rs as [|r rs IH]; intros acc; simpl.
  - by rewrite app_nil_r.
  - rewrite IH, filter_cons. unfold extend_success.
    destruct (String.eqb_spec (status r) "success") as [He|Hne].
    + rewrite decide_True by done. simpl. by rewrite app_assoc.
    + by rewrite decide_False by done.
Qed.

Lemma fold_collect_step (rs : list ScrapingResult) (acc : list article) (n : Z) :
  fold_left collect_step rs (acc, n) =
  (fold_left extend_success rs acc,
   (n + Z.of_nat (length (fold_left extend_success rs acc)) - Z.of_nat (length acc))%Z).
Proof.
  revert acc n. induction rs as [|r rs IH]; intros acc n; simpl.
  - f_equal. lia.
  - unfold collect_step at 2. unfold extend_success at 2 4.
    destruct (String.eqb (status r) "success"); simpl.
    + rewrite IH. f_equal. rewrite length_app. lia.
    + apply IH.
Qed.

(** C6. For every result map, the flattened sequence built by
    [save_results] and by the collection step of [run_scraping] is the
    concatenation of the article lists of the results whose status is
    [success], in the iteration order of the map; the total count is the
    length of that sequence; and a result whose status is not [success]
    contributes nothing to either, wherever it stands in the map, which is
    only read. *)
Theorem C6_aggregation (results : Py.dict ScrapingResult) :
  all_articles_of results =
    concat (map articles (filter (fun r => status r = "success") (Py.values results))) /\
  run_scraping_collect results =
    (all_articles_of results, Z.of_nat (length (all_articles_of results))) /\
  (forall before after key r,
     status r <> "success" ->
     all_articles_of (before ++ (key, r) :: after) = all_articles_of (before ++ after) /\
     run_scraping_collect (before ++ (key, r) :: after) =
       run_scraping_collect (before ++ after) /\
     Py.dict_get key (before ++ (key, r) :: after) <> None).
Proof.
  assert (Hall : forall rs, all_articles_of rs =
            concat (map articles (filter (fun r => status r = "success") (Py.values rs)))).
  { intros rs. unfold all_articles_of. by rewrite fold_extend_success. }
  assert (Hrun : forall rs, run_scraping_collect rs =
            (all_articles_of rs, Z.of_nat (length (all_articles_of rs)))).
  { intros rs. unfold run_scraping_collect, all_articles_of.
    rewrite fold_collect_step. f_equal. simpl. lia. }
  split; [apply Hall|]. split; [apply Hrun|].
  intros before after key r Hr.
  assert (Heq : all_articles_of (before ++ (key, r) :: after) =
                all_articles_of (before ++ after)).
  { rewrite !Hall. unfold Py.values. rewrite !map_app, !filter_app. simpl.
    rewrite filter_cons. by rewrite decide_False by done. }
  split; [exact Heq|]. split; [by rewrite !Hrun, Heq|].
  clear Heq. induction before as [|[k v] before IH]; simpl.
  - rewrite String.eqb_refl. discriminate.
  - destruct (String.eqb key k); [discriminate|exact IH].
Qed.

Lemma C6_aggregation_witness :
  let failed := mkScrapingResult "krebs_security" [] "error" (Some "Failed to fetch") in
  let ok := mkScrapingResult "gb_hackers" [[("title", "Botnet takedown")]] "success" None in
  all_articles_of [("krebs_security", failed); ("gb_hackers", ok)] =
    all_articles_of [("gb_hackers", ok)] /\
  run_scraping_collect [("krebs_security", failed); ("gb_hackers", ok)] =
    ([[("title", "Botnet takedown")]], 1%Z).
Proof.
  intros failed ok.
  destruct (C6_aggregation [("krebs_security", failed); ("gb_hackers", ok)])
    as (_ & _ & Herr).
  destruct (Herr [] [("gb_hackers", ok)] "krebs_security" failed) as (Ha & Hr & _).
  - discriminate.
  - split; [exact Ha|]. etrans; [exact Hr|]. reflexivity.
Defined.

(** A run in which no result is successful has nothing to export. *)
Lemma all_articles_of_no_success (results : Py.dict ScrapingResult) :
  Forall (fun r => status r <> "success") (Py.values results) ->
  all_articles_of results = [].
Proof.
  intros H. unfold all_articles_of. rewrite fold_extend_success. simpl.
  induction H as [|r rs Hr _ IH]; [done|].
  rewrite filter_cons. by rewrite decide_False by done.
Qed.

(** With articles to save, both formats requested and files that open,
    [save_results] writes the two files and returns their names. *)
Lemma save_results_writes_both (sw : save_world) (results : Py.dict ScrapingResult) :
  all_articles_of results <> [] ->
  (forall name, open_w sw name = Return tt) ->
  let arts := all_articles_of results in
  let csv := "cybersecurity_news_" +:+ timestamp_now sw +:+ ".csv" in
  let json := "cybersecurity_news_" +:+ timestamp_now sw +:+ ".json" in
  outcome_of (save_results sw results "both") = Return (Some csv, Some json) /\
  In (WriteCsv csv (csv_fieldnames arts) arts)
     (trace_of (save_results sw results "both")) /\
  In (WriteJson json (isoformat_now sw) (length arts) arts)
     (trace_of (save_results sw results "both")).
Proof.
  intros Hne Hopen arts csv json. unfold save_results. fold arts.
  destruct arts as [|a l] eqn:Harts; [done|].
  cbn [member existsb String.eqb Ascii.eqb Bool.eqb orb].
  unfold outcome_of, trace_of, mbind, io_mbind, io_bind, emit, lift, mret, io_mret, io_ret.
  rewrite !Hopen. cbn. fold csv json. split; [done|]. split.
  - right; left. reflexivity.
  - do 4 right; left. reflexivity.
Qed.

(** C9. When the flattened article sequence is empty, [save_results]
    opens and writes no file: its only effect is the warning
    "No articles to save", and it returns no file name for either format,
    whatever the format requested and whatever the file system would do. *)
Theorem C9_empty_export (sw : save_world) (results : Py.dict ScrapingResult)
    (format_type : string) :
  all_articles_of results = [] ->
  save_results sw results format_type =
    ([Log WARNING "No articles to save"], Return (None, None)).
Proof. intros H. unfold save_results. by rewrite H. Qed.

Lemma C9_empty_export_witness :
  let failed := mkScrapingResult "krebs_security" [] "error" (Some "Failed to fetch") in
  let down := mkScrapingResult "gb_hackers" [] "error" (Some "feed unreachable") in
  all_articles_of [("krebs_security", failed); ("gb_hackers", down)] = [] /\
  save_results sample_save_world [("krebs_security", failed); ("gb_hackers", down)] "both" =
    ([Log WARNING "No articles to save"], Return (None, None)).
Proof.
  intros failed down.
  assert (H : all_articles_of [("krebs_security", failed); ("gb_hackers", down)] = [])
    by reflexivity.
  split; [exact H|].
  exact (C9_empty_export sample_save_world _ "both" H).
Defined.

(** * The orchestrator *)

Lemma all_tasks_fetch (self : CybersecurityAggregator) (w : world) (limit : Z) :
  async_tasks self w limit ++ rss_tasks self w limit =
  map (fetch self w limit) descriptors.
Proof. reflexivity. Qed.

(** Every task of a batch returns the result of its source. *)
Lemma fetch_all_return (self : CybersecurityAggregator) (w : world) (limit : Z)
    (ds : list descriptor) :
  exists rs,
    map outcome_of (map (fetch self w limit) ds) = map Return rs /\
    Forall2 (fun d r => outcome_of (fetch self w limit d) = Return r /\
                        source r = label d) ds rs.
Proof.
  induction ds as [|d ds (rs & Hmap & Hall)].
  - exists []. split; [done|constructor].
  - destruct (proj1 (returns_exists _ _) (fetch_fetched self w limit d))
      as (r & Hr & Hsrc & _).
    exists (r :: rs). split.
    + simpl. by rewrite Hr, Hmap.
    + by constructor.
Qed.

Lemma dict_set_fresh {V} (k : string) (v : V) (d : Py.dict V) :
  k ∉ Py.keys d -> Py.dict_set k v d = d ++ [(k, v)].
Proof.
  induction d as [|[k' v'] d IH]; intros Hk; [done|].
  simpl in *. apply not_elem_of_cons in Hk as [Hne Hk].
  destruct (String.eqb_spec k k') as [->|_]; [done|].
  by rewrite IH.
Qed.

(** With a callback that returns, the loop over the gathered results
    stores them all and reports each one once, in the order of the list. *)
Lemma collect_results_all (callback : option callback_t)
    (rs : list ScrapingResult) (acc : Py.dict ScrapingResult) :
  callback_returns callback ->
  NoDup (Py.keys acc ++ map (fun r => source_key (source r)) rs) ->
  collect_results callback (map Return rs) acc =
  (match callback with
   | Some _ => map (fun r => Callback (source_key (source r)) r) rs
   | None => []
   end,
   Return (acc ++ map keyed rs)).
Proof.
  intros Hcb. revert acc. induction rs as [|r rs IH]; intros acc Hnd.
  - simpl. rewrite app_nil_r. by destruct callback.
  - cbn [map collect_results].
    assert (Hfresh : source_key (source r) ∉ Py.keys acc).
    { cbn [map] in Hnd. apply NoDup_app in Hnd as (_ & Hdis & _).
      intros Hin. apply (Hdis _ Hin). by left. }
    rewrite (dict_set_fresh _ _ _ Hfresh).
    assert (Hnd' : NoDup (Py.keys (acc ++ [(source_key (source r), r)]) ++
                          map (fun r => source_key (source r)) rs)).
    { unfold Py.keys. rewrite map_app. simpl. by rewrite <- app_assoc. }
    specialize (IH _ Hnd'). rewrite <- app_assoc in IH. cbn [app] in IH.
    destruct callback as [cb|].
    + unfold mbind, io_mbind, io_bind, emit, lift. rewrite (Hcb _ r), IH.
      reflexivity.
    + exact IH.
Qed.

Lemma descriptor_keys_NoDup :
  NoDup (map (fun d => source_key (label d)) descriptors).
Proof. refine (bool_decide_unpack _ _). vm_compute. exact I. Qed.

Lemma source_keys_of_labels (ds : list descriptor) (rs : list ScrapingResult)
    (P : descriptor -> ScrapingResult -> Prop) :
  Forall2 (fun d r => P d r /\ source r = label d) ds rs ->
  map (fun r => source_key (source r)) rs = map (fun d => source_key (label d)) ds.
Proof.
  induction 1 as [|d r ds rs [_ Hsrc] _ IH]; [done|].
  simpl. by rewrite Hsrc, IH.
Qed.

(** The whole run, for a callback that returns. *)
Lemma scrape_all_async_run (self : CybersecurityAggregator) (w : world)
    (limit : Z) (callback : option callback_t) (schedule : list nat) :
  callback_returns callback ->
  exists rs,
    Forall2 (fun d r => outcome_of (fetch self w limit d) = Return r /\
                        source r = label d) descriptors rs /\
    scrape_all_async self w limit callback schedule =
    (Log INFO "Starting async scraping..." :: map TaskDone schedule ++
       match callback with
       | Some _ => map (fun r => Callback (source_key (source r)) r) rs
       | None => []
       end,
     Return (map keyed rs)).
Proof.
  intros Hcb.
  destruct (fetch_all_return self w limit descriptors) as (rs & Hmap & Hall).
  exists rs. split; [exact Hall|].
  unfold scrape_all_async, gather. rewrite all_tasks_fetch, Hmap.
  unfold mbind, io_mbind, io_bind, emit.
  rewrite (collect_results_all callback rs [] Hcb).
  - reflexivity.
  - simpl. rewrite (source_keys_of_labels _ _ _ Hall).
    apply descriptor_keys_NoDup.
Qed.

Lemma dict_get_keyed (ds : list descriptor) (rs : list ScrapingResult)
    (P : descriptor -> ScrapingResult -> Prop) (d : descriptor) :
  Forall2 (fun d r => P d r /\ source r = label d) ds rs ->
  NoDup (map (fun d => source_key (label d)) ds) ->
  d ∈ ds ->
  exists r, Py.dict_get (source_key (label d)) (map keyed rs) = Some r /\ P d r.
Proof.
  induction 1 as [|d0 r0 ds rs [HP Hsrc] _ IH]; intros Hnd Hin.
  - by apply elem_of_nil in Hin.
  - cbn [map] in Hnd. apply NoDup_cons in Hnd as [Hfresh Hnd].
    cbn [map Py.dict_get keyed fst snd]. rewrite Hsrc.
    apply elem_of_cons in Hin as [->|Hin].
    + rewrite String.eqb_refl. by exists r0.
    + destruct (String.eqb_spec (source_key (label d)) (source_key (label d0)))
        as [Heq|_].
      * exfalso. apply Hfresh. rewrite <- Heq.
        apply (list_elem_of_fmap_2 (fun d => source_key (label d))), Hin.
      * by apply IH.
Qed.











(** * Further properties of the fetchers *)

Lemma str_take_length (n : nat) (s : string) :
  Py.str_len (Py.str_take n s) <= n.
Proof.
  revert n. induction s as [|c s IH]; intros n; simpl; [lia|].
  destruct (Py.is_continuation c) eqn:Hc.
  - simpl. rewrite Hc. apply IH.
  - destruct n as [|n]; simpl; [lia|]. rewrite Hc. specialize (IH n). lia.
Qed.

Lemma slice_to_length {A} (n : Z) (l : list A) :
  (0 <= n)%Z -> (Z.of_nat (length (Py.slice_to n l)) <= n)%Z.
Proof.
  intros Hn. unfold Py.slice_to.
  destruct (Z.leb_spec 0 n); [|lia]. rewrite length_take. lia.
Qed.

Lemma feed_built_Forall (P : article -> Prop)
    (build : nat -> feed_fields -> article) (entries : list feed_entry) (i : nat) :
  (forall j f, P (build j f)) -> Forall P (feed_built build i entries).
Proof.
  intros HP. eapply Forall_impl; [apply feed_built_from|].
  by intros art (j & f & _ & ->).
Qed.

Lemma feed_built_map {B} (g : article -> B) (h : feed_fields -> B)
    (build : nat -> feed_fields -> article) (entries : list feed_entry) (i : nat) :
  (forall j f, g (build j f) = h f) ->
  map g (feed_built build i entries) = map h (well_formed entries).
Proof.
  intros Hg. revert i. induction entries as [|[e|f] entries IH]; intros i;
    [done|apply IH|].
  cbn [feed_built well_formed omap list_omap map]. rewrite Hg. f_equal. apply IH.
Qed.

Lemma well_formed_length (entries : list feed_entry) :
  length (well_formed entries) <= length entries.
Proof.
  induction entries as [|[e|f] entries IH]; simpl; lia.
Qed.

Lemma feed_built_length (build : nat -> feed_fields -> article)
    (entries : list feed_entry) (i : nat) :
  length (feed_built build i entries) <= length entries.
Proof.
  rewrite <- (List.length_map (fun _ => tt)).
  rewrite (feed_built_map _ (fun _ => tt)) by done.
  rewrite List.length_map. apply well_formed_length.
Qed.

Lemma story_loop_length (w : world) (elements : list story_element) (i : nat) :
  length (story_loop w i elements) <= length elements.
Proof.
  revert i. induction elements as [|[|s] elements IH]; intros i; simpl; [lia| |].
  - specialize (IH (S i)). lia.
  - specialize (IH (S i)). destruct (story_article _ s); simpl; lia.
Qed.

Lemma story_article_summary (now : string) (s : story) (art : article) :
  story_article now s = Some art ->
  exists text, Py.dict_get "summary" art = Some text /\ Py.str_len text <= 300.
Proof.
  unfold story_article.
  destruct (match find_h2_entry_title s with Some t => Some t | None => find_h2_h3 s end)
    as [[txt [[[u|]]|]]|]; cbn [find_a href get_text]; try done.
  destruct (truthy u); [|done]. intros [= <-].
  eexists. split; [reflexivity|]. apply str_take_length.
Qed.

Lemma story_loop_summaries (w : world) (elements : list story_element) (i : nat) :
  Forall (fun art => exists text, Py.dict_get "summary" art = Some text /\
                                  Py.str_len text <= 300)
         (story_loop w i elements).
Proof.
  revert i. induction elements as [|[|s] elements IH]; intros i;
    [constructor|apply IH|].
  cbn [story_loop]. destruct (story_article _ s) as [art|] eqn:Hart; [|apply IH].
  constructor; [by eapply story_article_summary|apply IH].
Qed.

Lemma async_feed_article_bounded (w : world) (id lbl : string) (i : nat)
    (f : feed_fields) :
  bounded_fields 100 250 (async_feed_article w id lbl i f).
Proof.
  do 2 eexists. split; [reflexivity|]. split; [apply str_take_length|].
  split; [reflexivity|apply str_take_length].
Qed.

Lemma rss_article_bounded (w : world) (src : string) (i : nat) (f : feed_fields) :
  bounded_fields 100 250 (rss_article w src i f).
Proof.
  unfold rss_article. destruct (entry_author f).
  - do 2 eexists. split; [reflexivity|]. split; [apply str_take_length|].
    split; [reflexivity|apply str_take_length].
  - do 2 eexists. split; [reflexivity|]. split; [apply str_take_length|].
    split; [reflexivity|apply str_take_length].
Qed.

(** X1. Every article of a feed fetcher has a title of at most 100
    characters and a summary of at most 250; every article of the page
    scraper has a summary of at most 300 characters. *)
Theorem X1_field_bounds (cfg : RetryConfig) (rss_feeds : gmap string string)
    (w : world) (src : string) (limit : Z) :
  (exists r, outcome_of (scrape_dark_reading w limit) = Return r /\
             Forall (bounded_fields 100 250) (articles r)) /\
  (exists r, outcome_of (scrape_bleeping_computer w limit) = Return r /\
             Forall (bounded_fields 100 250) (articles r)) /\
  (exists r, outcome_of (fetch_rss_feed rss_feeds w src limit) = Return r /\
             Forall (bounded_fields 100 250) (articles r)) /\
  (exists r, outcome_of (scrape_krebs_security cfg w limit) = Return r /\
             Forall (fun art => exists text,
                       Py.dict_get "summary" art = Some text /\
                       Py.str_len text <= 300)
                    (articles r)).
Proof.
  repeat split.
  - eexists. split; [apply scrape_feed_async_outcome|].
    destruct (feedparser_parse w _); [|constructor].
    apply feed_built_Forall, async_feed_article_bounded.
  - eexists. split; [apply scrape_feed_async_outcome|].
    destruct (feedparser_parse w _); [|constructor].
    apply feed_built_Forall, async_feed_article_bounded.
  - eexists. split; [apply fetch_rss_feed_outcome|].
    destruct (truthy _); [|constructor].
    destruct (feedparser_parse w _); [|constructor].
    apply feed_built_Forall, rss_article_bounded.
  - eexists. split; [apply scrape_krebs_security_outcome|].
    destruct (first_body _ _) as [html|]; [|constructor].
    destruct (truthy html); [|constructor].
    destruct (find_all_article w html); [|constructor].
    apply story_loop_summaries.
Qed.

(** X2. For a limit that is not negative, no fetcher returns more
    articles than the limit. *)
Theorem X2_limit_respected (cfg : RetryConfig) (rss_feeds : gmap string string)
    (w : world) (src : string) (limit : Z) :
  (0 <= limit)%Z ->
  (exists r, outcome_of (scrape_dark_reading w limit) = Return r /\
             (Z.of_nat (length (articles r)) <= limit)%Z) /\
  (exists r, outcome_of (scrape_bleeping_computer w limit) = Return r /\
             (Z.of_nat (length (articles r)) <= limit)%Z) /\
  (exists r, outcome_of (fetch_rss_feed rss_feeds w src limit) = Return r /\
             (Z.of_nat (length (articles r)) <= limit)%Z) /\
  (exists r, outcome_of (scrape_krebs_security cfg w limit) = Return r /\
             (Z.of_nat (length (articles r)) <= limit)%Z).
Proof.
  intros Hlimit.
  assert (Hfeed : forall build (feed : list feed_entry),
            (Z.of_nat (length (feed_built build 0 (Py.slice_to limit feed))) <= limit)%Z).
  { intros build feed. pose proof (feed_built_length build (Py.slice_to limit feed) 0).
    pose proof (slice_to_length limit feed Hlimit). lia. }
  repeat split.
  - eexists. split; [apply scrape_feed_async_outcome|].
    destruct (feedparser_parse w _); [apply Hfeed|simpl; lia].
  - eexists. split; [apply scrape_feed_async_outcome|].
    destruct (feedparser_parse w _); [apply Hfeed|simpl; lia].
  - eexists. split; [apply fetch_rss_feed_outcome|].
    destruct (truthy _); [|simpl; lia].
    destruct (feedparser_parse w _); [apply Hfeed|simpl; lia].
  - eexists. split; [apply scrape_krebs_security_outcome|].
    destruct (first_body _ _) as [html|]; [|simpl; lia].
    destruct (truthy html); [|simpl; lia].
    destruct (find_all_article w html) as [elements|e]; [|simpl; lia].
    cbn [articles].
    pose proof (story_loop_length w (Py.slice_to limit elements) 0).
    pose proof (slice_to_length limit elements Hlimit). lia.
Qed.

Lemma X2_limit_respected_witness :
  (0 <= 1)%Z /\
  exists r, outcome_of (fetch_rss_feed rss_feeds_init sample_world "gb_hackers" 1) = Return r /\
            (Z.of_nat (length (articles r)) <= 1)%Z.
Proof.
  assert (H : (0 <= 1)%Z) by lia.
  split; [exact H|].
  destruct (X2_limit_respected retry_config rss_feeds_init sample_world "gb_hackers" 1 H)
    as (_ & _ & Hrss & _).
  exact Hrss.
Defined.

Lemma rss_article_url (w : world) (src : string) (i : nat) (f : feed_fields) :
  Py.dict_get "url" (rss_article w src i f) = Some (default "N/A" (entry_link f)).
Proof. unfold rss_article. destruct (entry_author f); reflexivity. Qed.

Lemma rss_article_author (w : world) (src : string) (i : nat) (f : feed_fields) :
  Py.dict_get "author" (rss_article w src i f) = entry_author f.
Proof. unfold rss_article. destruct (entry_author f); reflexivity. Qed.

Lemma truthy_nonempty (s : string) : s <> "" -> truthy s = true.
Proof. by destruct s. Qed.

(** X3. When the feed of a configured source parses, [fetch_rss_feed]
    succeeds whatever the entries are: a malformed entry is skipped, and
    every other entry among the first [limit] yields one article, in the
    upstream order, whose [url] is the entry's link, or "N/A" when it has
    none, and which has an [author] exactly when the entry has one. *)
Theorem X3_rss_entries_kept (rss_feeds : gmap string string) (w : world)
    (src url : string) (feed : list feed_entry) (limit : Z) :
  rss_feeds !! src = Some url ->
  url <> "" ->
  feedparser_parse w url = Return feed ->
  exists r,
    outcome_of (fetch_rss_feed rss_feeds w src limit) = Return r /\
    status r = "success" /\ error r = None /\
    length (articles r) = length (well_formed (Py.slice_to limit feed)) /\
    map (Py.dict_get "url") (articles r) =
      map (fun f => Some (default "N/A" (entry_link f)))
          (well_formed (Py.slice_to limit feed)) /\
    map (Py.dict_get "author") (articles r) =
      map entry_author (well_formed (Py.slice_to limit feed)).
Proof.
  intros Hsrc Hurl Hfeed. eexists. split; [apply fetch_rss_feed_outcome|].
  rewrite Hsrc. cbn [from_option id]. rewrite (truthy_nonempty _ Hurl), Hfeed.
  cbn [status error articles]. repeat split.
  - rewrite <- (List.length_map (fun _ => tt)).
    rewrite (feed_built_map _ (fun _ => tt)) by done. apply List.length_map.
  - apply feed_built_map. intros j f. apply rss_article_url.
  - apply feed_built_map. intros j f. apply rss_article_author.
Qed.

Lemma X3_rss_entries_kept_witness :
  exists r,
    outcome_of (fetch_rss_feed rss_feeds_init sample_world "gb_hackers" 10) = Return r /\
    status r = "success" /\
    map (Py.dict_get "url") (articles r) =
      [Some "https://example.org/patch-tuesday"; Some "N/A"] /\
    map (Py.dict_get "author") (articles r) = [Some "Staff"; None].
Proof.
  destruct (X3_rss_entries_kept rss_feeds_init sample_world "gb_hackers"
              "https://gbhackers.com/feed/"
              [FeedEntry dated_fields; MalformedEntry "bad entry"; FeedEntry undated_fields]
              10)
    as (r & Hr & Hs & _ & _ & Hu & Ha).
  - vm_compute. reflexivity.
  - discriminate.
  - reflexivity.
  - exists r. split; [exact Hr|]. split; [exact Hs|]. split; [exact Hu|exact Ha].
Defined.

(** X4. The articles of the two asynchronous feed scrapers have exactly
    the keys [title], [url], [summary], [published] and [source], in that
    order: the author of an upstream entry is dropped, unlike in
    [fetch_rss_feed], and the source label is the constant of the
    scraper. *)
Theorem X4_async_feed_keys (w : world) (limit : Z) :
  (exists r, outcome_of (scrape_dark_reading w limit) = Return r /\
     Forall (fun art => Py.keys art = async_feed_keys /\
                        Py.dict_get "author" art = None /\
                        Py.dict_get "source" art = Some "Dark Reading")
            (articles r)) /\
  (exists r, outcome_of (scrape_bleeping_computer w limit) = Return r /\
     Forall (fun art => Py.keys art = async_feed_keys /\
                        Py.dict_get "author" art = None /\
                        Py.dict_get "source" art = Some "Bleeping Computer")
            (articles r)).
Proof.
  split.
  - eexists. split; [apply scrape_feed_async_outcome|].
    destruct (feedparser_parse w _); [|constructor].
    apply feed_built_Forall. by intros j f.
  - eexists. split; [apply scrape_feed_async_outcome|].
    destruct (feedparser_parse w _); [|constructor].
    apply feed_built_Forall. by intros j f.
Qed.

(** * Further properties of the retry loop and of the page scraper *)

Lemma sleeps_attempts_bounded (cfg : RetryConfig) (url : string) (l : list nat) :
  Forall (fun d => (d <= max_delay cfg)%Z)
         (sleeps (flat_map (attempt_actions cfg url) l)).
Proof.
  induction l as [|a l IH]; [constructor|].
  destruct a as [|a]; simpl; [exact IH|].
  constructor; [apply Z.le_min_r|exact IH].
Qed.

Lemma sleeps_attempts_length (cfg : RetryConfig) (url : string) (s k : nat) :
  length (sleeps (flat_map (attempt_actions cfg url) (seq (S s) k))) = k.
Proof.
  revert s. induction k as [|k IH]; intros s; [done|].
  simpl. by rewrite IH.
Qed.

(** X5. Whatever the configuration and the server, every pause of the
    retry loop is at most [max_delay], and the loop pauses exactly once
    less than it sends requests. *)
Theorem X5_pause_ceiling (cfg : RetryConfig) (url : string)
    (get : nat -> http_outcome) :
  let t := trace_of (scrape_with_retry cfg url get) in
  Forall (fun d => (d <= max_delay cfg)%Z) (sleeps t) /\
  length (sleeps t) = pred (gets t).
Proof.
  intros t. unfold t.
  rewrite <- sleeps_actions, <- gets_actions, scrape_with_retry_actions.
  split; [apply sleeps_attempts_bounded|].
  rewrite gets_flat_map_attempts, length_seq.
  destruct (attempts_made get _) as [|k]; [done|].
  cbn [seq flat_map attempt_actions app sleeps pred].
  apply sleeps_attempts_length.
Qed.

(** X6. With a configuration that allows no attempt
    ([max_retries <= 0]) the retry loop sends no request at all, and the
    page scraper opens and closes its session and reports
    "Failed to fetch". *)
Theorem X6_no_attempt_allowed (cfg : RetryConfig) (w : world) (limit : Z) :
  (max_retries cfg <= 0)%Z ->
  scrape_with_retry cfg krebs_url (session_get w krebs_url) = ([], Return None) /\
  scrape_krebs_security cfg w limit =
    ([SessionOpen; SessionClose],
     Return (mkScrapingResult "krebs_security" [] "error" (Some "Failed to fetch"))).
Proof.
  intros Hn.
  assert (H0 : Z.to_nat (max_retries cfg) = 0) by lia.
  unfold scrape_krebs_security, scrape_with_retry. rewrite H0. by split.
Qed.

Lemma X6_no_attempt_allowed_witness :
  (max_retries no_retry_config <= 0)%Z /\
  scrape_krebs_security no_retry_config sample_world 10 =
    ([SessionOpen; SessionClose],
     Return (mkScrapingResult "krebs_security" [] "error" (Some "Failed to fetch"))).
Proof.
  assert (H : (max_retries no_retry_config <= 0)%Z) by (simpl; lia).
  split; [exact H|].
  exact (proj2 (X6_no_attempt_allowed no_retry_config sample_world 10 H)).
Defined.

(** The trace of the page scraper: the session is opened, the retry loop
    runs, and what follows depends on the page fetched. *)
Lemma scrape_krebs_security_trace (cfg : RetryConfig) (w : world) (limit : Z) :
  trace_of (scrape_krebs_security cfg w limit) =
  SessionOpen ::
  trace_of (scrape_with_retry cfg krebs_url (session_get w krebs_url)) ++
  match first_body (session_get w krebs_url) (seq 0 (Z.to_nat (max_retries cfg))) with
  | Some html =>
      if truthy html then
        ParseHtml ::
        match find_all_article w html with
        | Return _ => [SessionClose]
        | Raise e => [Log ERROR ("Error scraping Krebs on Security: " +:+ e)]
        end
      else [SessionClose]
  | None => [SessionClose]
  end.
Proof.
  unfold scrape_krebs_security.
  pose proof (scrape_with_retry_outcome cfg krebs_url (session_get w krebs_url)) as Ho.
  destruct (scrape_with_retry cfg krebs_url (session_get w krebs_url)) as [t o].
  unfold outcome_of in Ho. cbn [snd] in Ho. subst o.
  unfold try_except, mbind, io_mbind, io_bind, emit, lift, mret, io_mret, io_ret,
    not_html, trace_of.
  destruct (first_body _ _) as [html|]; cbn; [|by rewrite ?app_nil_r].
  destruct (truthy html); cbn; [|by rewrite ?app_nil_r].
  destruct (find_all_article w html); cbn; by rewrite <- ?app_assoc, ?app_nil_r.
Qed.

Lemma retry_loop_events (cfg : RetryConfig) (url : string)
    (get : nat -> http_outcome) (l : list nat) :
  Forall (fun e => is_retry_event e = true) (trace_of (retry_loop cfg url get l)).
Proof.
  induction l as [|a l IH]; [constructor|].
  cbn [retry_loop]. rewrite trace_bind, attempt_once_outcome.
  assert (Ha : Forall (fun e => is_retry_event e = true)
                      (trace_of (attempt_once cfg url get a))).
  { unfold attempt_once, sleep_before.
    destruct (get a) as [e|code [body|e]]; destruct a as [|a];
      try destruct (code =? 200)%Z; repeat constructor. }
  destruct (accepted_body (get a)); apply Forall_app; split;
    first [done | constructor].
Qed.

Lemma count_events_app (p : event -> bool) (t1 t2 : trace) :
  count_events p (t1 ++ t2) = count_events p t1 + count_events p t2.
Proof. unfold count_events. by rewrite List.filter_app, length_app. Qed.

Lemma count_events_none (p q : event -> bool) (t : trace) :
  (forall e, q e = true -> p e = false) ->
  Forall (fun e => q e = true) t -> count_events p t = 0.
Proof.
  intros Hpq Ht. unfold count_events.
  induction Ht as [|e t He _ IH]; [done|].
  simpl. by rewrite (Hpq _ He).
Qed.

(** X7. The page scraper opens its session exactly once, before anything
    else.  It closes it exactly once, as its last effect, on every path
    but one: when parsing the fetched page raises, the session is never
    closed. *)
Theorem X7_session_lifetime (cfg : RetryConfig) (w : world) (limit : Z) :
  let t := trace_of (scrape_krebs_security cfg w limit) in
  head t = Some SessionOpen /\
  count_events is_session_open t = 1 /\
  (page_parse_raises cfg w = false ->
     count_events is_session_close t = 1 /\ last t = Some SessionClose) /\
  (page_parse_raises cfg w = true -> count_events is_session_close t = 0).
Proof.
  intros t. unfold t. rewrite scrape_krebs_security_trace.
  pose proof (retry_loop_events cfg krebs_url (session_get w krebs_url)
                (seq 0 (Z.to_nat (max_retries cfg)))) as Hev.
  fold (scrape_with_retry cfg krebs_url (session_get w krebs_url)) in Hev.
  set (run := trace_of (scrape_with_retry cfg krebs_url (session_get w krebs_url))) in *.
  assert (Hopen : count_events is_session_open run = 0).
  { apply (count_events_none _ is_retry_event); [|done]. by intros [[]| | | | | | | | | | |]. }
  assert (Hclose : count_events is_session_close run = 0).
  { apply (count_events_none _ is_retry_event); [|done]. by intros [[]| | | | | | | | | | |]. }
  unfold page_parse_raises.
  split; [done|].
  change (SessionOpen :: run ++ ?tl) with ([SessionOpen] ++ run ++ tl).
  rewrite !count_events_app, Hopen, Hclose.
  destruct (first_body _ _) as [html|]; [destruct (truthy html);
    [destruct (find_all_article w html)|]|];
    cbn [andb]; (split; [reflexivity|]); split; intros Hcond;
    try discriminate Hcond;
    first [reflexivity | split; [reflexivity|by rewrite !last_app]].
Qed.

Lemma X7_session_lifetime_witness :
  page_parse_raises retry_config unparsable_page_world = true /\
  count_events is_session_close
    (trace_of (scrape_krebs_security retry_config unparsable_page_world 10)) = 0 /\
  page_parse_raises retry_config sample_world = false /\
  last (trace_of (scrape_krebs_security retry_config sample_world 10)) = Some SessionClose.
Proof.
  assert (H1 : page_parse_raises retry_config unparsable_page_world = true) by reflexivity.
  assert (H2 : page_parse_raises retry_config sample_world = false) by reflexivity.
  destruct (X7_session_lifetime retry_config unparsable_page_world 10) as (_ & _ & _ & Hleak).
  destruct (X7_session_lifetime retry_config sample_world 10) as (_ & _ & Hclosed & _).
  split; [exact H1|]. split; [exact (Hleak H1)|]. split; [exact H2|].
  exact (proj2 (Hclosed H2)).
Defined.

Lemma gets_app (t1 t2 : trace) : gets (t1 ++ t2) = gets t1 + gets t2.
Proof. induction t1 as [|[] t1 IH]; simpl; lia. Qed.

(** X8. A response with status 200 and an empty body ends the retry
    loop, so no further request is sent; the page scraper then reports
    "Failed to fetch" without parsing anything. *)
Theorem X8_empty_page (cfg : RetryConfig) (w : world) (limit : Z) (a : nat) :
  a < Z.to_nat (max_retries cfg) ->
  session_get w krebs_url a = HttpResponse 200 (Return "") ->
  (forall b, b < a -> accepted_body (session_get w krebs_url b) = None) ->
  outcome_of (scrape_krebs_security cfg w limit) =
    Return (mkScrapingResult "krebs_security" [] "error" (Some "Failed to fetch")) /\
  gets (trace_of (scrape_krebs_security cfg w limit)) = S a /\
  count_events (fun e => match e with ParseHtml => true | _ => false end)
    (trace_of (scrape_krebs_security cfg w limit)) = 0.
Proof.
  intros Ha Hget Hnone.
  destruct (first_accepted_seq (session_get w krebs_url)
              (Z.to_nat (max_retries cfg)) 0 a "") as [Hb Hm].
  { lia. } { by rewrite Hget. } { intros b Hb. apply Hnone. lia. }
  rewrite scrape_krebs_security_outcome, scrape_krebs_security_trace, Hb.
  cbn [truthy]. split; [done|].
  pose proof (retry_loop_events cfg krebs_url (session_get w krebs_url)
                (seq 0 (Z.to_nat (max_retries cfg)))) as Hev.
  fold (scrape_with_retry cfg krebs_url (session_get w krebs_url)) in Hev.
  pose proof (scrape_with_retry_gets cfg krebs_url (session_get w krebs_url)) as Hg.
  rewrite Hm in Hg.
  set (run := trace_of (scrape_with_retry cfg krebs_url (session_get w krebs_url))) in *.
  split.
  - cbn [gets]. rewrite gets_app, Hg. simpl. lia.
  - change (SessionOpen :: run ++ ?tl) with ([SessionOpen] ++ run ++ tl).
    rewrite !count_events_app.
    rewrite (count_events_none _ is_retry_event run); [done| |done].
    by intros [[]| | | | | | | | | | |].
Qed.

Lemma X8_empty_page_witness :
  outcome_of (scrape_krebs_security retry_config empty_page_world 10) =
    Return (mkScrapingResult "krebs_security" [] "error" (Some "Failed to fetch")) /\
  gets (trace_of (scrape_krebs_security retry_config empty_page_world 10)) = 1.
Proof.
  destruct (X8_empty_page retry_config empty_page_world 10 0) as (Ho & Hg & _).
  - vm_compute. lia.
  - reflexivity.
  - intros b Hb. lia.
  - exact (conj Ho Hg).
Defined.

(** * Further properties of the feed fetch, the orchestrator and the export *)

Lemma feed_loop_logs (build : nat -> feed_fields -> article)
    (debug_prefix : string) (entries : list feed_entry) (i : nat) :
  Forall (fun e => is_log e = true) (trace_of (feed_loop build debug_prefix i entries)).
Proof.
  revert i. induction entries as [|[e|f] entries IH]; intros i; [constructor| |].
  - cbn [feed_loop]. rewrite trace_bind. cbn [outcome_of emit snd trace_of fst].
    constructor; [done|apply IH].
  - cbn [feed_loop]. rewrite trace_bind, feed_loop_outcome.
    apply Forall_app. split; [apply IH|constructor].
Qed.

Lemma fetch_rss_feed_trace (rss_feeds : gmap string string) (w : world)
    (src : string) (limit : Z) :
  trace_of (fetch_rss_feed rss_feeds w src limit) =
  if truthy (default "" (rss_feeds !! src)) then
    FeedParse (default "" (rss_feeds !! src)) ::
    match feedparser_parse w (default "" (rss_feeds !! src)) with
    | Return feed =>
        trace_of (feed_loop (rss_article w src)
                    ("Error parsing " +:+ src +:+ " entry: ") 0
                    (Py.slice_to limit feed))
    | Raise e => [Log ERROR ("Error fetching RSS for " +:+ src +:+ ": " +:+ e)]
    end
  else [].
Proof.
  unfold fetch_rss_feed. cbv zeta.
  destruct (truthy _); [|reflexivity]. cbn [negb].
  unfold try_except, mbind, io_mbind, io_bind, emit, lift, mret, io_mret, io_ret, trace_of.
  destruct (feedparser_parse w _) as [feed|e]; cbn; [|reflexivity].
  pose proof (feed_loop_outcome (rss_article w src)
                ("Error parsing " +:+ src +:+ " entry: ") 0 (Py.slice_to limit feed)) as Ho.
  destruct (feed_loop _ _ _ _) as [t o]. unfold outcome_of in Ho. cbn [snd] in Ho.
  subst o. cbn. by rewrite ?app_nil_r.
Qed.

(** X9. For a source with a configured feed, [fetch_rss_feed] asks the
    feed parser exactly once, first of all, and never again, whether the
    retrieval succeeds or fails: every other effect is a log line. *)
Theorem X9_feed_single_shot (rss_feeds : gmap string string) (w : world)
    (src url : string) (limit : Z) :
  rss_feeds !! src = Some url ->
  url <> "" ->
  let t := trace_of (fetch_rss_feed rss_feeds w src limit) in
  head t = Some (FeedParse url) /\
  List.filter (fun e => negb (is_log e)) t = [FeedParse url].
Proof.
  intros Hsrc Hurl t. unfold t. rewrite fetch_rss_feed_trace, Hsrc.
  cbn [from_option id]. rewrite (truthy_nonempty _ Hurl).
  split; [done|]. cbn [List.filter is_log negb]. f_equal.
  assert (Hlogs : forall l, Forall (fun e => is_log e = true) l ->
                            List.filter (fun e => negb (is_log e)) l = []).
  { induction 1 as [|e l He _ IH]; [done|]. simpl. by rewrite He. }
  destruct (feedparser_parse w url); [|done].
  apply Hlogs, feed_loop_logs.
Qed.

Lemma X9_feed_single_shot_witness :
  trace_of (fetch_rss_feed rss_feeds_init sample_world "the_hacker_news" 10) <> [] /\
  List.filter (fun e => negb (is_log e))
    (trace_of (fetch_rss_feed rss_feeds_init sample_world "the_hacker_news" 10)) =
    [FeedParse "https://feeds.feedburner.com/TheHackersNews"].
Proof.
  destruct (X9_feed_single_shot rss_feeds_init sample_world "the_hacker_news"
              "https://feeds.feedburner.com/TheHackersNews" 10) as [Hh Hf].
  - vm_compute. reflexivity.
  - discriminate.
  - split; [|exact Hf]. intros Hnil. rewrite Hnil in Hh. discriminate Hh.
Defined.







(** X11. With articles to save, a [format_type] other than [csv],
    [json] and [both] makes [save_results] do nothing at all: no file is
    opened, nothing is logged (not even the warning of the empty case),
    and no file name is returned. *)
Theorem X11_unknown_format (sw : save_world) (results : Py.dict ScrapingResult)
    (format_type : string) :
  all_articles_of results <> [] ->
  format_type <> "csv" -> format_type <> "json" -> format_type <> "both" ->
  save_results sw results format_type = ([], Return (None, None)).
Proof.
  intros Hne Hcsv Hjson Hboth. unfold save_results.
  destruct (all_articles_of results) as [|a l]; [done|].
  unfold member. cbn [existsb].
  apply String.eqb_neq in Hcsv, Hjson, Hboth. by rewrite Hcsv, Hjson, Hboth.
Qed.

Lemma X11_unknown_format_witness :
  all_articles_of sample_results <> [] /\
  save_results sample_save_world sample_results "xml" = ([], Return (None, None)).
Proof.
  assert (H : all_articles_of sample_results <> []) by discriminate.
  split; [exact H|].
  apply (X11_unknown_format sample_save_world sample_results "xml" H); discriminate.
Defined.

Lemma save_results_csv_unopened (sw : save_world) (results : Py.dict ScrapingResult)
    (e : string) :
  all_articles_of results <> [] ->
  open_w sw (csv_name sw) = Raise e ->
  forall format_type, member format_type ["csv"; "both"] = true ->
    save_results sw results format_type = ([OpenFile (csv_name sw)], Raise e).
Proof.
  intros Hne Hopen format_type Hfmt.
  unfold save_results, csv_name in *.
  destruct (all_articles_of results) as [|a l]; [done|]. rewrite Hfmt.
  unfold mbind, io_mbind, io_bind, emit, lift. by rewrite Hopen.
Qed.

(** X12. With articles to save, a CSV file that cannot be opened makes
    [save_results] raise at once, before anything is written and before
    the JSON file is tried; and when the CSV file is written but the JSON
    file cannot be opened, the call raises although the CSV file has been
    written and stays. *)
Theorem X12_open_failure (sw : save_world) (results : Py.dict ScrapingResult)
    (e : string) :
  all_articles_of results <> [] ->
  (open_w sw (csv_name sw) = Raise e ->
   forall format_type, member format_type ["csv"; "both"] = true ->
     save_results sw results format_type = ([OpenFile (csv_name sw)], Raise e)) /\
  (open_w sw (csv_name sw) = Return tt ->
   open_w sw (json_name sw) = Raise e ->
     outcome_of (save_results sw results "both") = Raise e /\
     count_events is_write_csv (trace_of (save_results sw results "both")) = 1 /\
     count_events is_write_json (trace_of (save_results sw results "both")) = 0).
Proof.
  intros Hne. unfold save_results, csv_name, json_name.
  destruct (all_articles_of results) as [|a l]; [done|]. split.
  - intros Hopen format_type ->.
    unfold mbind, io_mbind, io_bind, emit, lift. by rewrite Hopen.
  - intros Hcsv Hjson.
    cbn [member existsb String.eqb Ascii.eqb Bool.eqb orb].
    unfold mbind, io_mbind, io_bind, emit, lift, mret, io_mret, io_ret,
      outcome_of, trace_of.
    by rewrite Hcsv, Hjson.
Qed.

Lemma X12_open_failure_witness :
  save_results read_only_save_world sample_results "csv" =
    ([OpenFile "cybersecurity_news_20240514_193000.csv"], Raise "Permission denied") /\
  outcome_of (save_results csv_only_save_world sample_results "both") =
    Raise "Permission denied" /\
  count_events is_write_csv
    (trace_of (save_results csv_only_save_world sample_results "both")) = 1.
Proof.
  assert (H : all_articles_of sample_results <> []) by discriminate.
  destruct (X12_open_failure read_only_save_world sample_results "Permission denied" H)
    as [Hcsv _].
  destruct (X12_open_failure csv_only_save_world sample_results "Permission denied" H)
    as [_ Hjson].
  split; [apply Hcsv; reflexivity|].
  destruct Hjson as (Ho & Hc & _); [reflexivity|reflexivity|].
  exact (conj Ho Hc).
Defined.

Lemma insert_sorted_In (k x : string) (l : list string) :
  In x (Py.insert_sorted k l) <-> x = k \/ In x l.
Proof.
  induction l as [|y l IH]; simpl; [intuition congruence|].
  destruct (String.compare k y) eqn:Hc; simpl.
  - apply String.compare_eq_iff in Hc as ->. intuition congruence.
  - intuition congruence.
  - rewrite IH. intuition congruence.
Qed.

Lemma insert_sorted_HdRel (a k : string) (l : list string) :
  str_lt a k -> HdRel str_lt a l -> HdRel str_lt a (Py.insert_sorted k l).
Proof.
  intros Hak Hal. destruct l as [|y l]; simpl; [by constructor|].
  destruct (String.compare k y); [done|by constructor|].
  constructor. by inversion Hal.
Qed.

Lemma insert_sorted_Sorted (k : string) (l : list string) :
  Sorted str_lt l -> Sorted str_lt (Py.insert_sorted k l).
Proof.
  induction 1 as [|y l Hl IH Hy]; simpl; [by repeat constructor|].
  destruct (String.compare k y) eqn:Hc.
  - by constructor.
  - constructor; [by constructor|by constructor].
  - constructor; [exact IH|].
    apply insert_sorted_HdRel; [|exact Hy].
    unfold str_lt. by rewrite String.compare_antisym, Hc.
Qed.

Lemma sorted_set_In (x : string) (l : list string) :
  In x (Py.sorted_set l) <-> In x l.
Proof.
  unfold Py.sorted_set. induction l as [|k l IH]; simpl; [done|].
  rewrite insert_sorted_In, IH. intuition congruence.
Qed.

Lemma sorted_set_Sorted (l : list string) : Sorted str_lt (Py.sorted_set l).
Proof.
  unfold Py.sorted_set. induction l as [|k l IH]; simpl; [constructor|].
  by apply insert_sorted_Sorted.
Qed.

(** X13. The column names of the CSV file are in strictly increasing
    order, so none is repeated, and they are exactly the keys that occur
    in some article: every key of every row has its column. *)
Theorem X13_csv_fieldnames (all_articles : list article) :
  Sorted str_lt (csv_fieldnames all_articles) /\
  (forall k, In k (csv_fieldnames all_articles) <->
             exists art, In art all_articles /\ In k (Py.keys art)).
Proof.
  split; [apply sorted_set_Sorted|].
  intros k. unfold csv_fieldnames. rewrite sorted_set_In, in_concat.
  split.
  - intros (ks & (art & <- & Hart)%in_map_iff & Hk). by exists art.
  - intros (art & Hart & Hk). exists (Py.keys art). split; [|done].
    apply in_map_iff. by exists art.
Qed.

(** * Properties of the presentation layer *)

Lemma lookup_map_take {A B} (f : A -> B) (l : list A) (n i : nat) (a : A) :
  i < n -> l !! i = Some a -> map f (take n l) !! i = Some (f a).
Proof.
  intros Hi Ha. change (map f (take n l)) with (f <$> take n l).
  rewrite list_lookup_fmap, lookup_take_lt by done. by rewrite Ha.
Qed.

(** X14. The articles tree is cleared and then filled with one row per
    article for the first 200 articles only, in their order: the row of
    position [i] shows the source of the article of position [i]
    ("Unknown" without one), the first 80 characters of its title ("N/A"
    without one) and its URL (empty without one). *)
Theorem X14_populate_articles (all_articles : list article) :
  exists rows,
    populate_articles all_articles = TreeClear :: rows /\
    length rows = Nat.min 200 (length all_articles) /\
    (forall i a,
       i < 200 -> all_articles !! i = Some a ->
       exists title,
         rows !! i = Some (TreeInsert (default "Unknown" (Py.dict_get "source" a))
                                      title
                                      (default "" (Py.dict_get "url" a))) /\
         title = Py.str_take 80 (default "N/A" (Py.dict_get "title" a)) /\
         Py.str_len title <= 80).
Proof.
  eexists. split; [reflexivity|]. split.
  - by rewrite List.length_map, length_take.
  - intros i a Hi Ha. eexists. split; [|split; [reflexivity|apply str_take_length]].
    exact (lookup_map_take _ all_articles 200 i a Hi Ha).
Qed.

Lemma prefix_http_truthy (url : string) :
  (truthy url && String.prefix "http" url)%bool = String.prefix "http" url.
Proof. by destruct url. Qed.

(** X15. A double click with nothing selected raises.  Otherwise only
    the first selected row counts, and the browser is opened, on the URL
    of that row's article as it stands, exactly when this URL starts with
    [http]: an article without a link (whose URL is "N/A" or missing)
    never opens the browser. *)
Theorem X15_open_url (a : article) (others : list (list string)) :
  open_url [] = ([], Raise "tuple index out of range") /\
  open_url (row_values a :: others) =
    (if String.prefix "http" (default "" (Py.dict_get "url" a))
     then [OpenBrowser (default "" (Py.dict_get "url" a))] else [],
     Return tt) /\
  (Py.dict_get "url" a = Some "N/A" \/ Py.dict_get "url" a = None ->
   opened (fst (open_url (row_values a :: others))) = []).
Proof.
  assert (Hrow : open_url (row_values a :: others) =
            (if String.prefix "http" (default "" (Py.dict_get "url" a))
             then [OpenBrowser (default "" (Py.dict_get "url" a))] else [],
             Return tt)).
  { unfold open_url, row_values. cbn [length Nat.ltb Nat.leb bool_decide andb negb].
    rewrite bool_decide_false by done. cbn [negb andb lookup list_lookup from_option id].
    rewrite prefix_http_truthy. by destruct (String.prefix _ _). }
  split; [done|]. split; [exact Hrow|].
  intros [Hna|Hnone]; rewrite Hrow; [rewrite Hna|rewrite Hnone]; reflexivity.
Qed.

Lemma X15_open_url_witness :
  opened (fst (open_url
    [row_values [("title", "Botnet takedown"); ("url", "N/A")]])) = [].
Proof.
  destruct (X15_open_url [("title", "Botnet takedown"); ("url", "N/A")] [])
    as (_ & _ & Hna).
  apply Hna. left. reflexivity.
Defined.

(** X16. [update_stat_card] does nothing for a key that has no card.
    For a key that has one it sets the count and the status of that card
    and writes one log line; the count shown is the number of articles of
    a successful result and 0 for any other result; and the log line has
    level [success] exactly when the result is successful with at least
    one article, and is otherwise a warning carrying the result's error
    message, or "No articles" when it has none. *)
Theorem X16_update_stat_card (stat_cards : list string) (key : string)
    (r : ScrapingResult) :
  (member key stat_cards = false -> update_stat_card stat_cards key r = []) /\
  (member key stat_cards = true ->
   exists status_text fg message lvl,
     update_stat_card stat_cards key r =
       [ SetCount key
           (pretty (if String.eqb (status r) "success" then length (articles r) else 0)
            +:+ " articles");
         SetStatus key status_text fg;
         UiLog message lvl ] /\
     (lvl = "success" <-> status r = "success" /\ articles r <> []) /\
     (lvl <> "success" ->
      lvl = "warning" /\
      message = "⚠️ " +:+ card_title key +:+ ": " +:+ error_or_no_articles r)).
Proof.
  unfold update_stat_card. split; intros ->; [done|].
  destruct (String.eqb_spec (status r) "success") as [Hs|Hs].
  - destruct (articles r) as [|a l] eqn:Ha.
    + do 4 eexists. split; [reflexivity|]. split; [|done].
      split; [discriminate|]. by intros [_ H].
    + do 4 eexists. split; [reflexivity|]. split; [|done].
      split; [done|]. by intros _.
  - do 4 eexists. split; [reflexivity|]. split; [|done].
    split; [discriminate|]. by intros [H _].
Qed.

Lemma X16_update_stat_card_witness :
  update_stat_card stat_cards_init "gb_hackers"
    (mkScrapingResult "gb_hackers" [] "success" None) =
  [ SetCount "gb_hackers" "0 articles";
    SetStatus "gb_hackers" "✅ SUCCESS" "#10b981";
    UiLog "⚠️ Gb Hackers: No articles" "warning" ] /\
  update_stat_card stat_cards_init "threat_post"
    (mkScrapingResult "threat_post" [] "success" None) = [].
Proof.
  destruct (X16_update_stat_card stat_cards_init "gb_hackers"
              (mkScrapingResult "gb_hackers" [] "success" None)) as [_ Hcard].
  destruct (X16_update_stat_card stat_cards_init "threat_post"
              (mkScrapingResult "threat_post" [] "success" None)) as [Hnone _].
  split; [|apply Hnone; reflexivity].
  destruct Hcard as (status_text & fg & message & lvl & Heq & _); [reflexivity|].
  vm_compute. reflexivity.
Defined.

Lemma snake_char (b : bool) (c : ascii) :
  Py.is_upper c = false -> Ascii.eqb c " " = false ->
  let c' := if Ascii.eqb c "_" then " "%char else c in
  let shown := if b then Py.to_lower c' else Py.to_upper c' in
  (if Ascii.eqb (Py.to_lower shown) " " then "_"%char else Py.to_lower shown) = c.
Proof.
  destruct b, c as [[] [] [] [] [] [] [] []]; intros Hu Hs;
    first [discriminate Hu | discriminate Hs | reflexivity].
Qed.

Lemma source_key_title_from (b : bool) (s : string) :
  is_snake s = true ->
  source_key (Py.title_from b (Py.replace "_" " " s)) = s.
Proof.
  revert b. induction s as [|c s IH]; intros b Hs; [done|].
  cbn [is_snake] in Hs. apply andb_prop in Hs as [[[_ Hu]%andb_prop Hsp]%andb_prop Hs].
  apply negb_true_iff in Hu, Hsp.
  unfold source_key in *. cbn [Py.replace Py.title_from Py.lower].
  f_equal; [apply (snake_char b c Hu Hsp)|apply IH, Hs].
Qed.

(** X17. Round trip of the two label transformations: for an ASCII
    identifier without upper-case letters and without spaces, the key
    computed by the orchestrator from the label shown on the card, and
    written by [fetch_rss_feed] in the [source] field of its articles, is
    the identifier itself. *)
Theorem X17_label_round_trip (s : string) :
  is_snake s = true ->
  source_key (card_title s) = s /\
  source_key (Py.title (Py.replace "_" " " s)) = s.
Proof. intros Hs. split; by apply source_key_title_from. Qed.

Lemma X17_label_round_trip_witness :
  is_snake "the_hacker_news" = true /\
  card_title "the_hacker_news" = "The Hacker News" /\
  source_key (card_title "the_hacker_news") = "the_hacker_news".
Proof.
  assert (H : is_snake "the_hacker_news" = true) by reflexivity.
  split; [exact H|]. split; [reflexivity|].
  exact (proj1 (X17_label_round_trip "the_hacker_news" H)).
Defined.

Lemma core_events_app (evs1 evs2 : list ui_event) :
  core_events (evs1 ++ evs2) = core_events evs1 ++ core_events evs2.
Proof. induction evs1 as [|[] evs1 IH]; simpl; by rewrite ?IH. Qed.

Lemma core_events_map_Core (t : trace) : core_events (map Core t) = t.
Proof. induction t as [|e t IH]; simpl; by rewrite ?IH. Qed.

Lemma core_events_exported (kind : string) (file : option string) :
  core_events (exported kind file) = [].
Proof. destruct file as [f|]; [|done]. unfold exported. by destruct (truthy f). Qed.

(** The aggregator events of an export that reaches [save_results] are
    those of [save_results]. *)
Lemma export_results_core (sw : save_world) (st : ui_state)
    (export_csv export_json : bool) (folder : string) :
  ui_all_articles st <> [] -> folder <> "" ->
  core_events (export_results sw st export_csv export_json folder) =
  trace_of (save_results sw (ui_results st) (export_format export_csv export_json)).
Proof.
  intros Hne Hfolder. unfold export_results.
  destruct (ui_all_articles st) as [|a l]; [done|].
  rewrite (truthy_nonempty _ Hfolder).
  destruct (save_results _ _ _) as [t [[csv_file json_file]|e]];
    cbn [core_events trace_of fst];
    rewrite !core_events_app, core_events_map_Core, ?core_events_exported;
    cbn [core_events app]; by rewrite ?app_nil_r.
Qed.

(** X18. When the window holds the articles of its results and the user
    picks a folder, an export with the CSV box ticked whose CSV file
    cannot be opened writes nothing, shows the error dialog with the
    cause and logs it, and shows no success message. *)
Theorem X18_export_reports_failure (sw : save_world) (st : ui_state)
    (export_json : bool) (folder e : string) :
  ui_all_articles st = all_articles_of (ui_results st) ->
  ui_all_articles st <> [] ->
  folder <> "" ->
  open_w sw (csv_name sw) = Raise e ->
  export_results sw st true export_json folder =
    [ AskDirectory;
      Core (OpenFile (csv_name sw));
      ShowError "Export Error" ("Error exporting: " +:+ e);
      UiLog ("❌ Export error: " +:+ e) "error" ].
Proof.
  intros Hst Hne Hfolder Hopen. rewrite Hst in Hne.
  assert (Hsave := save_results_csv_unopened sw (ui_results st) e Hne Hopen
                     (export_format true export_json)).
  unfold export_results. rewrite Hst.
  destruct (all_articles_of (ui_results st)) as [|a l]; [done|].
  rewrite (truthy_nonempty _ Hfolder), Hsave; [done|by destruct export_json].
Qed.

Lemma X18_export_reports_failure_witness :
  export_results read_only_save_world
    (mkUiState sample_results (all_articles_of sample_results)) true true "/tmp/news" =
  [ AskDirectory;
    Core (OpenFile "cybersecurity_news_20240514_193000.csv");
    ShowError "Export Error" "Error exporting: Permission denied";
    UiLog "❌ Export error: Permission denied" "error" ].
Proof.
  apply (X18_export_reports_failure read_only_save_world
           (mkUiState sample_results (all_articles_of sample_results))
           true "/tmp/news" "Permission denied");
    [reflexivity|discriminate|discriminate|reflexivity].
Defined.

(** X19. With neither export box ticked, an export still writes the JSON
    file (and no CSV file): the format falls back to [json]. *)
Theorem X19_export_without_boxes (sw : save_world) (st : ui_state)
    (folder : string) :
  ui_all_articles st = all_articles_of (ui_results st) ->
  ui_all_articles st <> [] ->
  folder <> "" ->
  open_w sw (json_name sw) = Return tt ->
  core_events (export_results sw st false false folder) =
    [ OpenFile (json_name sw);
      WriteJson (json_name sw) (isoformat_now sw)
        (length (ui_all_articles st)) (ui_all_articles st);
      Log INFO ("✅ Saved results to " +:+ json_name sw) ].
Proof.
  intros Hst Hne Hfolder Hopen.
  rewrite (export_results_core sw st false false folder Hne Hfolder).
  rewrite Hst in *. unfold save_results, json_name in *. cbn [export_format andb].
  destruct (all_articles_of (ui_results st)) as [|a l]; [done|].
  cbn [member existsb String.eqb Ascii.eqb Bool.eqb orb].
  unfold mbind, io_mbind, io_bind, emit, lift, mret, io_mret, io_ret, trace_of.
  by rewrite Hopen.
Qed.

Lemma X19_export_without_boxes_witness :
  count_events is_write_json
    (core_events (export_results sample_save_world
       (mkUiState sample_results (all_articles_of sample_results))
       false false "/tmp/news")) = 1.
Proof.
  rewrite (X19_export_without_boxes sample_save_world
             (mkUiState sample_results (all_articles_of sample_results)) "/tmp/news");
    [reflexivity|reflexivity|discriminate|discriminate|reflexivity].
Defined.

Lemma save_results_file_names (sw : save_world) (results : Py.dict ScrapingResult)
    (format_type : string) :
  Forall (fun ev => forall name, ev = OpenFile name ->
                                 name = csv_name sw \/ name = json_name sw)
         (trace_of (save_results sw results format_type)).
Proof.
  unfold save_results, csv_name, json_name.
  destruct (all_articles_of results) as [|a l].
  { apply Forall_cons_2; [discriminate|apply Forall_nil_2]. }
  destruct (member format_type ["csv"; "both"]),
           (member format_type ["json"; "both"]);
    unfold mbind, io_mbind, io_bind, emit, lift, mret, io_mret, io_ret, trace_of;
    repeat match goal with
           | |- context [open_w sw ?n] => destruct (open_w sw n) as [[]|?]
           end;
    cbn;
    repeat (apply Forall_cons_2; [intros name Hev; inversion Hev; auto|]);
    apply Forall_nil_2.
Qed.

(** X20. The folder picked in the dialog is not used for writing: an
    export performs the same aggregator effects whatever folder is picked,
    and the only files it opens are the two files named by the timestamp,
    relative to the working directory. *)
Theorem X20_export_ignores_folder (sw : save_world) (st : ui_state)
    (export_csv export_json : bool) (folder1 folder2 : string) :
  folder1 <> "" -> folder2 <> "" ->
  core_events (export_results sw st export_csv export_json folder1) =
  core_events (export_results sw st export_csv export_json folder2) /\
  Forall (fun ev => forall name, ev = OpenFile name ->
                                 name = csv_name sw \/ name = json_name sw)
         (core_events (export_results sw st export_csv export_json folder1)).
Proof.
  intros H1 H2.
  destruct (ui_all_articles st) as [|a l] eqn:Harts.
  { unfold export_results. rewrite Harts. split; [done|]. repeat constructor. }
  assert (Hne : ui_all_articles st <> []) by (by rewrite Harts).
  rewrite !export_results_core by done. split; [done|].
  apply save_results_file_names.
Qed.

Lemma X20_export_ignores_folder_witness :
  core_events (export_results sample_save_world
     (mkUiState sample_results (all_articles_of sample_results)) true false "/tmp/news") =
  core_events (export_results sample_save_world
     (mkUiState sample_results (all_articles_of sample_results)) true false "/home/user").
Proof.
  apply (X20_export_ignores_folder sample_save_world
           (mkUiState sample_results (all_articles_of sample_results))
           true false "/tmp/news" "/home/user"); discriminate.
Defined.

Lemma run_scraping_collect_articles (results : Py.dict ScrapingResult) :
  fst (run_scraping_collect results) = all_articles_of results.
Proof. unfold run_scraping_collect. by rewrite fold_collect_step. Qed.

(** X21. After a run in which no source succeeded, the window holds no
    article, and an export only shows the warning dialog: no folder is
    asked for and [save_results] is not reached.  And an export whose
    folder dialog is cancelled does nothing after the dialog. *)
Theorem X21_export_declined (sw : save_world) (results : Py.dict ScrapingResult)
    (export_csv export_json : bool) (folder : string) :
  (Forall (fun r => status r <> "success") (Py.values results) ->
   export_results sw (mkUiState results (fst (run_scraping_collect results)))
     export_csv export_json folder =
     [ShowWarning "Export" "No articles to export. Please scrape first."]) /\
  (all_articles_of results <> [] ->
   export_results sw (mkUiState results (fst (run_scraping_collect results)))
     export_csv export_json "" = [AskDirectory]).
Proof.
  unfold export_results. cbn [ui_all_articles ui_results].
  rewrite run_scraping_collect_articles. split.
  - intros Hnone. by rewrite (all_articles_of_no_success results Hnone).
  - intros Hne. by destruct (all_articles_of results).
Qed.

Lemma X21_export_declined_witness :
  export_results sample_save_world
    (mkUiState [("krebs_security",
                 mkScrapingResult "krebs_security" [] "error" (Some "Failed to fetch"))]
               [])
    true true "/tmp/news" =
    [ShowWarning "Export" "No articles to export. Please scrape first."] /\
  export_results sample_save_world
    (mkUiState sample_results (fst (run_scraping_collect sample_results))) true true "" =
    [AskDirectory].
Proof.
  split.
  - apply (X21_export_declined sample_save_world
             [("krebs_security",
               mkScrapingResult "krebs_security" [] "error" (Some "Failed to fetch"))]
             true true "/tmp/news").
    repeat constructor. discriminate.
  - apply (X21_export_declined sample_save_world sample_results true true "").
    discriminate.
Defined.

(** * The two modes of a run *)

Lemma fetch_rss_feed_no_page_access (rss_feeds : gmap string string) (w : world)
    (src : string) (limit : Z) :
  Forall (fun e => is_page_access e = false)
         (trace_of (fetch_rss_feed rss_feeds w src limit)).
Proof.
  rewrite fetch_rss_feed_trace. destruct (truthy _); [|constructor].
  constructor; [done|].
  destruct (feedparser_parse w _); [|by repeat constructor].
  eapply Forall_impl; [apply feed_loop_logs|]. by intros [].
Qed.

(** The first loop of the RSS-only mode returns one result per source,
    in order, and touches no page. *)
Lemma fetch_each_run (rss_feeds : gmap string string) (w : world) (limit : Z)
    (sources : list string) :
  exists rs,
    outcome_of (fetch_each rss_feeds w limit sources) = Return rs /\
    Forall2 (fun src r => outcome_of (fetch_rss_feed rss_feeds w src limit) = Return r /\
                          source r = src) sources rs /\
    Forall (fun e => is_page_access e = false)
           (trace_of (fetch_each rss_feeds w limit sources)).
Proof.
  induction sources as [|src sources (rs & Ho & Hall & Ht)].
  - exists []. repeat split; constructor.
  - destruct (proj1 (returns_exists _ _) (fetch_rss_feed_fetched rss_feeds w src limit))
      as (r & Hr & Hsrc & _).
    exists (r :: rs). cbn [fetch_each].
    rewrite outcome_bind, trace_bind, Hr, outcome_bind, trace_bind, Ho.
    split; [done|]. split; [by constructor|].
    apply Forall_app. split; [apply fetch_rss_feed_no_page_access|].
    apply Forall_app. split; [exact Ht|constructor].
Qed.

Lemma store_results_all (stat_cards : list string) (rs : list ScrapingResult)
    (acc : Py.dict ScrapingResult) :
  NoDup (Py.keys acc ++ map (fun r => source_key (source r)) rs) ->
  store_results stat_cards rs acc =
  (flat_map (fun r => update_stat_card stat_cards (source_key (source r)) r) rs,
   acc ++ map keyed rs).
Proof.
  revert acc. induction rs as [|r rs IH]; intros acc Hnd.
  - simpl. by rewrite app_nil_r.
  - cbn [store_results map flat_map].
    assert (Hfresh : source_key (source r) ∉ Py.keys acc).
    { cbn [map] in Hnd. apply NoDup_app in Hnd as (_ & Hdis & _).
      intros Hin. apply (Hdis _ Hin). by left. }
    rewrite (dict_set_fresh _ _ _ Hfresh), IH.
    + by rewrite <- app_assoc.
    + unfold Py.keys. rewrite map_app. simpl. by rewrite <- app_assoc.
Qed.

Lemma source_keys_of_sources (sources : list string) (rs : list ScrapingResult)
    (P : string -> ScrapingResult -> Prop) :
  Forall2 (fun src r => P src r /\ source r = src) sources rs ->
  map (fun r => source_key (source r)) rs = map source_key sources.
Proof.
  induction 1 as [|src r sources rs [_ Hsrc] _ IH]; [done|].
  simpl. by rewrite Hsrc, IH.
Qed.

Lemma updated_cards_app (evs1 evs2 : list ui_event) :
  updated_cards (evs1 ++ evs2) = updated_cards evs1 ++ updated_cards evs2.
Proof. induction evs1 as [|[] evs1 IH]; simpl; by rewrite ?IH. Qed.

Lemma updated_cards_map_Core (t : trace) : updated_cards (map Core t) = [].
Proof. by induction t. Qed.

Lemma updated_cards_update (stat_cards : list string) (key : string)
    (r : ScrapingResult) :
  member key stat_cards = true ->
  updated_cards (update_stat_card stat_cards key r) = [key].
Proof.
  intros Hkey. unfold update_stat_card. rewrite Hkey. cbn [app updated_cards].
  by destruct (0 <? _)%nat.
Qed.

Lemma updated_cards_updates (stat_cards : list string) (rs : list ScrapingResult) :
  Forall (fun k => member k stat_cards = true)
         (map (fun r => source_key (source r)) rs) ->
  updated_cards
    (flat_map (fun r => update_stat_card stat_cards (source_key (source r)) r) rs) =
  map (fun r => source_key (source r)) rs.
Proof.
  induction rs as [|r rs IH]; [done|]. cbn [map flat_map].
  intros [Hr Hrs]%Forall_cons.
  by rewrite updated_cards_app, updated_cards_update, IH.
Qed.

Lemma core_events_updates (stat_cards : list string) (rs : list ScrapingResult) :
  core_events
    (flat_map (fun r => update_stat_card stat_cards (source_key (source r)) r) rs) = [].
Proof.
  induction rs as [|r rs IH]; [done|]. cbn [flat_map].
  rewrite core_events_app, IH, app_nil_r. unfold update_stat_card.
  destruct (member _ _); [|done]. cbn [app core_events]. by destruct (0 <? _)%nat.
Qed.

(** The RSS-only branch, as a whole. *)
Lemma run_scraping_rss_run (self : CybersecurityAggregator) (w : world)
    (limit : Z) (stat_cards : list string) :
  exists rs,
    Forall2 (fun src r => outcome_of (fetch_rss_feed (rss_aggregator self) w src limit)
                            = Return r /\ source r = src) rss_mode_sources rs /\
    run_scraping_rss self w limit stat_cards =
    (UiLog "🔄 Using RSS mode (faster)..." "info" ::
       map Core (trace_of (fetch_each (rss_aggregator self) w limit rss_mode_sources)) ++
       flat_map (fun r => update_stat_card stat_cards (source_key (source r)) r) rs,
     Return (map keyed rs)).
Proof.
  destruct (fetch_each_run (rss_aggregator self) w limit rss_mode_sources)
    as (rs & Ho & Hall & _).
  exists rs. split; [exact Hall|].
  unfold run_scraping_rss.
  destruct (fetch_each _ _ _ _) as [t o]. unfold outcome_of in Ho. cbn [snd] in Ho.
  subst o. rewrite store_results_all; [done|].
  cbn [Py.keys map app]. rewrite (source_keys_of_sources _ _ _ Hall).
  refine (bool_decide_unpack _ _). vm_compute. exact I.
Qed.

(** X22. The RSS-only mode of a run returns one result per source of its
    list, keyed by the source and in the order of the list, each being the
    result of [fetch_rss_feed] for that source; it never opens a session,
    requests, parses or waits for a page. *)
Theorem X22_rss_only_mode (self : CybersecurityAggregator) (w : world)
    (limit : Z) (stat_cards : list string) :
  exists results,
    snd (run_scraping_rss self w limit stat_cards) = Return results /\
    Py.keys results = rss_mode_sources /\
    (forall src, src ∈ rss_mode_sources ->
       exists r, Py.dict_get src results = Some r /\
                 outcome_of (fetch_rss_feed (rss_aggregator self) w src limit) = Return r) /\
    count_events is_page_access
      (core_events (fst (run_scraping_rss self w limit stat_cards))) = 0.
Proof.
  destruct (run_scraping_rss_run self w limit stat_cards) as (rs & Hall & Hrun).
  exists (map keyed rs). rewrite Hrun. cbn [fst snd]. split; [done|].
  assert (Hkeys : Py.keys (map keyed rs) = rss_mode_sources).
  { unfold Py.keys. rewrite map_map.
    change (map (fun x => fst (keyed x)) rs)
      with (map (fun r => source_key (source r)) rs).
    by rewrite (source_keys_of_sources _ _ _ Hall). }
  split; [exact Hkeys|]. split.
  - intros src Hsrc.
    assert (Hds : Forall2 (fun d r => outcome_of (fetch self w limit d) = Return r /\
                                      source r = label d)
                          (map RssFeed rss_mode_sources) rs).
    { apply Forall2_fmap_l. eapply Forall2_impl; [exact Hall|]. by intros s r [? ?]. }
    destruct (dict_get_keyed (map RssFeed rss_mode_sources) rs _ (RssFeed src) Hds)
      as (r & Hget & Hr).
    + refine (bool_decide_unpack _ _). vm_compute. exact I.
    + by apply (list_elem_of_fmap_2 RssFeed).
    + exists r. split; [|exact Hr].
      assert (Hkey : source_key src = src).
      { repeat (apply elem_of_cons in Hsrc as [->|Hsrc]; [reflexivity|]).
        by apply elem_of_nil in Hsrc. }
      cbn [label] in Hget. by rewrite Hkey in Hget.
  - cbn [core_events]. rewrite core_events_app, core_events_map_Core, core_events_updates.
    rewrite app_nil_r.
    destruct (fetch_each_run (rss_aggregator self) w limit rss_mode_sources)
      as (_ & _ & _ & Ht).
    apply (count_events_none is_page_access (fun e => negb (is_page_access e))).
    + intros e He. by destruct (is_page_access e).
    + eapply Forall_impl; [exact Ht|]. intros e He. by rewrite He.
Qed.

Lemma updated_cards_of_events (stat_cards : list string) (schedule : list nat)
    (rs : list ScrapingResult) :
  Forall (fun k => member k stat_cards = true)
         (map (fun r => source_key (source r)) rs) ->
  updated_cards
    (flat_map (ui_of_event stat_cards)
       (Log INFO "Starting async scraping..." :: map TaskDone schedule ++
        map (fun r => Callback (source_key (source r)) r) rs)) =
  map (fun r => source_key (source r)) rs.
Proof.
  intros Hkeys. cbn [flat_map ui_of_event app updated_cards].
  rewrite flat_map_app, updated_cards_app.
  assert (Hdone : updated_cards (flat_map (ui_of_event stat_cards) (map TaskDone schedule)) = []).
  { by induction schedule. }
  rewrite Hdone. cbn [app]. clear Hdone.
  induction rs as [|r rs IH]; [done|]. cbn [map flat_map ui_of_event] in *.
  apply Forall_cons in Hkeys as [Hr Hrs].
  by rewrite updated_cards_app, updated_cards_update, IH.
Qed.

(** X23. In either mode of a run every one of the six cards of the
    dashboard is updated exactly once, whatever the sources return: in the
    order of submission in the asynchronous mode, and in the order of the
    source list in the RSS-only mode. *)
Theorem X23_cards_updated_once (self : CybersecurityAggregator) (w : world)
    (limit : Z) (schedule : list nat) :
  updated_cards (fst (run_scraping_async self w limit stat_cards_init schedule)) =
    [ "dark_reading"; "bleeping_computer"; "krebs_security";
      "gb_hackers"; "the_hacker_news"; "security_week" ] /\
  updated_cards (fst (run_scraping_rss self w limit stat_cards_init)) =
    stat_cards_init /\
  updated_cards (fst (run_scraping_async self w limit stat_cards_init schedule)) ≡ₚ
    stat_cards_init.
Proof.
  assert (Hasync :
    updated_cards (fst (run_scraping_async self w limit stat_cards_init schedule)) =
      [ "dark_reading"; "bleeping_computer"; "krebs_security";
        "gb_hackers"; "the_hacker_news"; "security_week" ]).
  { destruct (scrape_all_async_run self w limit (Some (fun _ _ => Return tt)) schedule)
      as (rs & Hall & Hrun); [done|].
    unfold run_scraping_async. rewrite Hrun. cbn [fst updated_cards].
    pose proof (source_keys_of_labels _ _ _ Hall) as Hkeys.
    rewrite updated_cards_of_events; rewrite Hkeys; [reflexivity|].
    refine (bool_decide_unpack _ _). vm_compute. exact I. }
  split; [exact Hasync|]. split.
  - destruct (run_scraping_rss_run self w limit stat_cards_init) as (rs & Hall & Hrun).
    rewrite Hrun. cbn [fst updated_cards].
    rewrite updated_cards_app, updated_cards_map_Core. cbn [app].
    pose proof (source_keys_of_sources _ _ _ Hall) as Hkeys.
    rewrite updated_cards_updates; rewrite Hkeys; [reflexivity|].
    refine (bool_decide_unpack _ _). vm_compute. exact I.
  - rewrite Hasync. refine (bool_decide_unpack _ _). vm_compute. exact I.
Qed.
